(** * Attendance Scan Engine: scan handler, cooldown governor and camera
      lifecycle of the React front end

    Sources embedded here:
    - [src/frontend/src/components/UserDashboard.js]: the [UserDashboard]
      component (state hooks, the cooldown [useEffect], [handleQRScan]);
    - [src/frontend/src/components/QRScanner.js]: the click-driven scanner
      ([DemoScanner] below);
    - the second [QRScanner] component stored after [PanelApp] in
      [src/frontend/src/components/PanelApp.js], built on the [qr-scanner]
      library ([LiveScanner] below).

    React function components are embedded as follows.  The values held by
    [useState] form a record.  A handler is a closure of one render: what it
    reads are the values of that render, what it writes goes through the
    setters.  Setter calls are written as commands ([Cmd]) executed in order
    on the component state; after a handler has run, React renders again
    and runs the effects whose dependencies changed ([commit]).  An [async]
    handler is split at its [await]: the part before it, and the part that
    runs when the promise settles.  A closure that outlives its render (the
    decode callback handed to the [qr-scanner] library) keeps the values of
    the render that built it.

    [qrScanAPI.processScan] and the camera are outside the components: how
    a call settles and whether the camera starts are inputs of the model. *)

From Stdlib Require Import ZArith String Ascii DecimalString.
From stdpp Require Import base list gmap strings.

Local Open Scope Z_scope.

(** ** JavaScript strings: sequences of UTF-16 code units *)

Definition jsstring := list N.

(** An ASCII literal as code units. *)
Definition lit (s : string) : jsstring :=
  N_of_ascii <$> list_ascii_of_string s.

(** Numbers.  A JavaScript number is a double; the counts of seconds of
    this program are modelled by the integers, which a double holds
    exactly up to [2 ^ 53]: in that range [timer - 1], [<=] and [>] are the
    integer operations.  Beyond it a double no longer tells [timer - 1]
    from [timer], so what is proved of counting down carries the bound
    [exact_count]. *)
Definition exact_count (n : Z) : Prop := n <= 2 ^ 53.

(** [String(n)] for an integer [n], as a template literal prints it: in
    decimal, which is what JavaScript prints below [10 ^ 21] (it switches
    to exponent form there, far above [exact_count]). *)
Definition Number_toString (n : Z) : jsstring :=
  lit (NilZero.string_of_int (Z.to_int n)).

Fixpoint startsWith (s t : jsstring) {struct t} : bool :=
  match t, s with
  | [], _ => true
  | _ :: _, [] => false
  | b :: t', a :: s' => (a =? b)%N && startsWith s' t'
  end.

(** [s.includes(t)]: [t] occurs in [s] as a contiguous run of code units. *)
Fixpoint includes (s t : jsstring) : bool :=
  startsWith s t ||
  match s with
  | [] => false
  | _ :: s' => includes s' t
  end.

(** The literal ['poczekać'] ("to wait"); U+0107 is the final letter. *)
Definition poczekac : jsstring := lit "poczeka" ++ [263%N].

(** The literal ['Błąd połączenia z serwerem'] ("server connection error");
    U+0142 and U+0105 are the two Polish letters. *)
Definition blad_polaczenia : jsstring :=
  lit "B" ++ [322%N; 261%N] ++ lit "d po" ++ [322%N; 261%N]
    ++ lit "czenia z serwerem".

(** Truthiness of an optional number, as [if (result.cooldown_seconds)]
    tests it: [undefined] and [0] are falsy. *)
Definition truthy (v : option Z) : bool :=
  match v with
  | Some n => negb (n =? 0)
  | None => false
  end.

(** ** The Backend Attendance Service's answer to [processScan] *)

Module Backend.

Record Result := mkResult {
  success : bool;
  action : option jsstring;
  employee_name : option jsstring;
  time : option jsstring;
  message : jsstring;
  cooldown_seconds : option Z
}.

(** How an awaited [processScan] call settles: it resolves with a result
    or the call throws (transport fault, rejected promise). *)
Inductive Settled :=
| Resolved (result : Result)
| Thrown.

End Backend.

(** ** [UserDashboard] *)

Module UserDashboard.

(** The object handed to [setScanResult]; a key the code leaves out is
    [None] ([undefined]). *)
Record ScanResult := mkScanResult {
  success : bool;
  action : option jsstring;
  employee : option jsstring;
  time : option jsstring;
  message : jsstring;
  cooldown_seconds : option Z;
  isUnauthorized : option bool;
  isCooldown : option bool
}.

(** The [useState] cells of the component. *)
Record State := mkState {
  scanResult : option ScanResult;
  loading : bool;
  cooldownTimer : Z;
  isCooldownActive : bool
}.

Definition initial : State :=
  {| scanResult := None; loading := false;
     cooldownTimer := 0; isCooldownActive := false |}.

(** What the code does to the world outside its own variables: the four
    setters, the backend call and the interval of the cooldown effect. *)
Inductive Cmd :=
| setScanResult (v : option ScanResult)
| setLoading (v : bool)
| setCooldownTimer (v : Z)
| setIsCooldownActive (v : bool)
| processScan (qrData : jsstring) (userId : Z)
| setInterval
| clearInterval.

(** The component instance at run time: its state, whether the one-second
    interval is registered, and the [processScan] calls not settled yet. *)
Record Runtime := mkRuntime {
  ui : State;
  interval : bool;
  inflight : list (jsstring * Z)
}.

Definition boot : Runtime :=
  {| ui := initial; interval := false; inflight := [] |}.

Definition with_ui (f : State -> State) (rt : Runtime) : Runtime :=
  {| ui := f (ui rt); interval := interval rt; inflight := inflight rt |}.

Definition exec (rt : Runtime) (c : Cmd) : Runtime :=
  match c with
  | setScanResult v =>
      with_ui (fun s => {| scanResult := v; loading := loading s;
                           cooldownTimer := cooldownTimer s;
                           isCooldownActive := isCooldownActive s |}) rt
  | setLoading v =>
      with_ui (fun s => {| scanResult := scanResult s; loading := v;
                           cooldownTimer := cooldownTimer s;
                           isCooldownActive := isCooldownActive s |}) rt
  | setCooldownTimer v =>
      with_ui (fun s => {| scanResult := scanResult s; loading := loading s;
                           cooldownTimer := v;
                           isCooldownActive := isCooldownActive s |}) rt
  | setIsCooldownActive v =>
      with_ui (fun s => {| scanResult := scanResult s; loading := loading s;
                           cooldownTimer := cooldownTimer s;
                           isCooldownActive := v |}) rt
  | processScan qrData userId =>
      {| ui := ui rt; interval := interval rt;
         inflight := inflight rt ++ [(qrData, userId)] |}
  | setInterval =>
      {| ui := ui rt; interval := true; inflight := inflight rt |}
  | clearInterval =>
      {| ui := ui rt; interval := false; inflight := inflight rt |}
  end.

Definition run (cs : list Cmd) (rt : Runtime) : Runtime :=
  foldl exec rt cs.

(** *** The cooldown effect, [useEffect(..., [cooldownTimer])] *)

(** Body of the effect, in the render whose state is [r]. *)
Definition cooldownEffect (r : State) : list Cmd :=
  if 0 <? cooldownTimer r
  then [setIsCooldownActive true; setInterval]
  else [setIsCooldownActive false].

(** Its cleanup, [if (interval) clearInterval(interval)]. *)
Definition cooldownCleanup (registered : bool) : list Cmd :=
  if registered then [clearInterval] else [].

(** React after a handler that started from the render [prev]: when
    [cooldownTimer] differs from the value of that render, the cleanup of
    the previous effect runs and then the effect, in the new render. *)
Definition commit (prev : State) (rt : Runtime) : Runtime :=
  if cooldownTimer (ui rt) =? cooldownTimer prev then rt
  else run (cooldownCleanup (interval rt) ++ cooldownEffect (ui rt)) rt.

(** The updater the interval passes to [setCooldownTimer]: the new
    counter, and the setter it calls on the way.  [timer - 1] is the
    subtraction of the code for a counter within [exact_count]. *)
Definition tick_updater (timer : Z) : Z * list Cmd :=
  if timer <=? 1 then (0, [setIsCooldownActive false])
  else (timer - 1, []).

(** One firing of the interval; nothing fires when none is registered. *)
Definition tick (rt : Runtime) : Runtime :=
  if interval rt then
    let '(timer', cs) := tick_updater (cooldownTimer (ui rt)) in
    commit (ui rt) (run (cs ++ [setCooldownTimer timer']) rt)
  else rt.

(** *** [handleQRScan] *)

(** [`Musisz poczekać ${cooldownTimer} sekund przed kolejnym skanowaniem`] *)
Definition wait_message (timer : Z) : jsstring :=
  lit "Musisz " ++ poczekac ++ lit " " ++ Number_toString timer
    ++ lit " sekund przed kolejnym skanowaniem".

(** [if (result.cooldown_seconds) setCooldownTimer(result.cooldown_seconds)],
    the statement that arms the cooldown in both response branches. *)
Definition arm (cooldown_seconds : option Z) : list Cmd :=
  match cooldown_seconds with
  | Some n => if truthy (Some n) then [setCooldownTimer n] else []
  | None => []
  end.

(** The cooldown governor armed by a response carrying
    [cooldown_seconds]: the statement, then React's commit. *)
Definition armed (cooldown_seconds : option Z) (rt : Runtime) : Runtime :=
  commit (ui rt) (run (arm cooldown_seconds) rt).

Section Handler.

(** [user.id], a property of the component. *)
Variable userId : Z.

(** The handler up to its [await], as the closure of the render [r]. *)
Definition handleQRScan (r : State) (qrData : jsstring) : list Cmd :=
  if isCooldownActive r then
    [setScanResult (Some {| success := false; action := None;
                            employee := None; time := None;
                            message := wait_message (cooldownTimer r);
                            cooldown_seconds := None;
                            isUnauthorized := None;
                            isCooldown := Some true |})]
  else
    [setLoading true; setScanResult None; processScan qrData userId].

(** The object built from a resolved result. *)
Definition outcome (result : Backend.Result) : ScanResult :=
  if Backend.success result then
    {| success := true;
       action := Backend.action result;
       employee := Backend.employee_name result;
       time := Backend.time result;
       message := Backend.message result;
       cooldown_seconds := Backend.cooldown_seconds result;
       isUnauthorized := None; isCooldown := None |}
  else
    {| success := false; action := None; employee := None; time := None;
       message := Backend.message result;
       cooldown_seconds := None;
       isUnauthorized :=
         Some (negb (includes (Backend.message result) poczekac));
       isCooldown := Some (includes (Backend.message result) poczekac) |}.

(** The object built in the [catch] branch. *)
Definition connection_error : ScanResult :=
  {| success := false; action := None; employee := None; time := None;
     message := blad_polaczenia; cooldown_seconds := None;
     isUnauthorized := None; isCooldown := None |}.

(** The handler from its [await] on, once the call has settled. *)
Definition handleQRScan_resume (o : Backend.Settled) : list Cmd :=
  match o with
  | Backend.Resolved result =>
      [setScanResult (Some (outcome result))]
        ++ arm (Backend.cooldown_seconds result)
  | Backend.Thrown => [setScanResult (Some connection_error)]
  end ++ [setLoading false].

(** A decode event handed to the [handleQRScan] of the render [r],
    followed by React's commit. *)
Definition onScan_of (r : State) (qrData : jsstring) (rt : Runtime)
  : Runtime :=
  commit (ui rt) (run (handleQRScan r qrData) rt).

(** The same with the handler of the current render. *)
Definition onScan (qrData : jsstring) (rt : Runtime) : Runtime :=
  onScan_of (ui rt) qrData rt.

(** The [i]-th pending call settles with [o]. *)
Definition settle (i : nat) (o : Backend.Settled) (rt : Runtime)
  : Runtime :=
  match inflight rt !! i with
  | Some _ =>
      commit (ui rt)
        (run (handleQRScan_resume o)
           {| ui := ui rt; interval := interval rt;
              inflight := delete i (inflight rt) |})
  | None => rt
  end.

End Handler.

(** *** What the user is shown

    The result panel picks its colour by
    [success ? green : isCooldown ? orange : isUnauthorized ? red : red]
    and its heading by [success ? ... : isUnauthorized ? 'Brak dostępu'
    : 'Błąd']; the outcome kinds of the engine are read off the same
    flags. *)
Inductive Kind :=
| Accepted
| RejectedCooldown
| RejectedUnauthorized
| RejectedServerError.

Definition is_true (v : option bool) : bool :=
  match v with Some true => true | _ => false end.

Definition kind (sr : ScanResult) : Kind :=
  if success sr then Accepted
  else if is_true (isCooldown sr) then RejectedCooldown
  else if is_true (isUnauthorized sr) then RejectedUnauthorized
  else RejectedServerError.

End UserDashboard.

(** ** The camera, shared by both scanners *)

(** ['environment'] is the back camera, ['user'] the front one. *)
Inductive Facing := environment | user.

Definition Facing_eqb (a b : Facing) : bool :=
  match a, b with
  | environment, environment | user, user => true
  | _, _ => false
  end.

(** [facingMode === 'environment' ? 'user' : 'environment'] *)
Definition opposite (f : Facing) : Facing :=
  match f with environment => user | user => environment end.

(** The device: the streams that are open (their tracks running), and the
    identity the next acquired stream gets. *)
Record Camera := mkCamera {
  live : gset nat;
  next : nat
}.

Definition acquire (cam : Camera) : nat * Camera :=
  (next cam, {| live := {[ next cam ]} ∪ live cam; next := S (next cam) |}).

Definition release (id : nat) (cam : Camera) : Camera :=
  {| live := live cam ∖ {[ id ]}; next := next cam |}.

(** ** The click-driven scanner of [QRScanner.js] *)

Module DemoScanner.

Record State := mkState {
  isScanning : bool;
  error : option jsstring;
  facingMode : Facing;
  streamRef : option nat
}.

Definition initial : State :=
  {| isScanning := false; error := None;
     facingMode := environment; streamRef := None |}.

(** ['Nie można uzyskać dostępu do kamery'] *)
Definition camera_error : jsstring :=
  lit "Nie mo" ++ [380%N] ++ lit "na uzyska" ++ [263%N]
    ++ lit " dost" ++ [281%N] ++ lit "pu do kamery".

(** [startScanning]; [granted] tells whether [getUserMedia] resolves.  The
    video element is mounted by the render that follows
    [setIsScanning(true)], so [videoRef.current] is set when the promise
    has resolved. *)
Definition startScanning (granted : bool) (s : State) (cam : Camera)
  : State * Camera :=
  if granted then
    let '(stream, cam') := acquire cam in
    ({| isScanning := true; error := None;
        facingMode := facingMode s; streamRef := Some stream |}, cam')
  else
    ({| isScanning := false; error := Some camera_error;
        facingMode := facingMode s; streamRef := streamRef s |}, cam).

Definition stopScanning (s : State) (cam : Camera) : State * Camera :=
  match streamRef s with
  | Some stream =>
      ({| isScanning := false; error := error s;
          facingMode := facingMode s; streamRef := None |},
       release stream cam)
  | None =>
      ({| isScanning := false; error := error s;
          facingMode := facingMode s; streamRef := None |}, cam)
  end.

Definition toggleCamera (s : State) (cam : Camera) : State * Camera :=
  let '(s', cam') := stopScanning s cam in
  ({| isScanning := isScanning s'; error := error s';
      facingMode := opposite (facingMode s); streamRef := streamRef s' |},
   cam').

(** [useEffect(() => { if (isScanning && facingMode) startScanning() },
    [facingMode])], in the render whose state is [s]; a facing mode is a
    non-empty string, hence truthy. *)
Definition facingModeEffect (granted : bool) (s : State) (cam : Camera)
  : State * Camera :=
  if isScanning s && true then startScanning granted s cam else (s, cam).

(** React after a handler that started from the render [prev]. *)
Definition commit (granted : bool) (prev : State) (sc : State * Camera)
  : State * Camera :=
  if Facing_eqb (facingMode sc.1) (facingMode prev) then sc
  else facingModeEffect granted sc.1 sc.2.

(** The camera button pressed: the handler, then the commit. *)
Definition switchCamera (granted : bool) (s : State) (cam : Camera)
  : State * Camera :=
  commit granted s (toggleCamera s cam).

Definition mockQRCodes : list jsstring :=
  [lit "QR-EMP-001"; lit "QR-EMP-002"; lit "QR-INVALID-001"].

(** [handleVideoClick]: the payload passed to [onScan], if any; [rnd]
    stands for the random draw, reduced to an index of [mockQRCodes]. *)
Definition handleVideoClick (s : State) (loading : bool) (rnd : nat)
  : option jsstring :=
  if isScanning s && negb loading
  then mockQRCodes !! (rnd `mod` length mockQRCodes)%nat
  else None.

End DemoScanner.

(** ** The [qr-scanner] based scanner stored after [PanelApp] *)

Module LiveScanner.

(** The props of one render.  [onScan] is the parent's [handleQRScan] of
    that render, represented by the state it closes over. *)
Record Props := mkProps {
  onScan : UserDashboard.State;
  loading : bool;
  disabled : bool
}.

(** What [UserDashboard] passes in the render whose state is [r]:
    [onScan={handleQRScan} loading={loading}
     disabled={loading || isCooldownActive}]. *)
Definition props_of (r : UserDashboard.State) : Props :=
  {| onScan := r;
     loading := UserDashboard.loading r;
     disabled := UserDashboard.loading r
                 || UserDashboard.isCooldownActive r |}.

(** A [QrScanner] object.  Its decode callback is the arrow function
    created inside [startScanning]; [cb_disabled] and [cb_onScan] are the
    [disabled] and [onScan] of the render [startScanning] belonged to. *)
Record QrScanner := mkQrScanner {
  oid : nat;
  cb_disabled : bool;
  cb_onScan : UserDashboard.State;
  preferredCamera : Facing
}.

Record State := mkState {
  isScanning : bool;
  error : option jsstring;
  facingMode : Facing;
  qrScannerRef : option QrScanner
}.

Definition initial : State :=
  {| isScanning := false; error := None;
     facingMode := environment; qrScannerRef := None |}.

(** ['Nie można uzyskać dostępu do kamery. Sprawdź uprawnienia.'] *)
Definition camera_error : jsstring :=
  DemoScanner.camera_error ++ lit ". Sprawd" ++ [378%N]
    ++ lit " uprawnienia.".

(** ['Nie można przełączyć kamery'] *)
Definition switch_error : jsstring :=
  lit "Nie mo" ++ [380%N] ++ lit "na prze" ++ [322%N; 261%N]
    ++ lit "czy" ++ [263%N] ++ lit " kamery".

Definition destroy (q : option QrScanner) (cam : Camera) : Camera :=
  match q with
  | Some old => release (oid old) cam
  | None => cam
  end.

(** [startScanning] as the closure of a render with props [p] and state
    [s]; [started] tells whether [qrScanner.start()] resolves. *)
Definition startScanning (p : Props) (started : bool) (s : State)
  (cam : Camera) : State * Camera :=
  let cam1 := destroy (qrScannerRef s) cam in
  let qrScanner :=
    {| oid := next cam1; cb_disabled := disabled p;
       cb_onScan := onScan p; preferredCamera := facingMode s |} in
  if started then
    ({| isScanning := true; error := None; facingMode := facingMode s;
        qrScannerRef := Some qrScanner |}, (acquire cam1).2)
  else
    ({| isScanning := false; error := Some camera_error;
        facingMode := facingMode s; qrScannerRef := Some qrScanner |},
     {| live := live cam1; next := S (next cam1) |}).

(** The decode callback of the object [q] on a decode result carrying
    [data]: [if (result && result.data && !disabled) onScan(result.data)].
    The answer is the handler closure called and its argument. *)
Definition onDecode (q : QrScanner) (data : jsstring)
  : option (UserDashboard.State * jsstring) :=
  match data with
  | [] => None
  | _ :: _ => if negb (cb_disabled q) then Some (cb_onScan q, data) else None
  end.

Definition stopScanning (s : State) (cam : Camera) : State * Camera :=
  ({| isScanning := false; error := error s; facingMode := facingMode s;
      qrScannerRef := None |},
   destroy (qrScannerRef s) cam).

(** [toggleCamera] up to its [await]: the new facing mode is set, and
    [setCamera] is called on the current object when there is one.  Of the
    library call only the change of the object's preferred camera is
    recorded. *)
Definition toggleCamera (s : State) : State :=
  let newFacingMode := opposite (facingMode s) in
  {| isScanning := isScanning s; error := error s;
     facingMode := newFacingMode;
     qrScannerRef :=
       match qrScannerRef s with
       | Some q => Some {| oid := oid q; cb_disabled := cb_disabled q;
                           cb_onScan := cb_onScan q;
                           preferredCamera := newFacingMode |}
       | None => None
       end |}.

(** [toggleCamera] after its [await]: the [catch] when [setCamera] was
    called and rejected. *)
Definition toggleCamera_resume (called switched : bool) (s : State)
  : State :=
  if called && negb switched then
    {| isScanning := isScanning s; error := Some switch_error;
       facingMode := facingMode s; qrScannerRef := qrScannerRef s |}
  else s.

(** [useEffect(() => { if (isScanning) startScanning() }, [facingMode])] *)
Definition facingModeEffect (p : Props) (started : bool) (s : State)
  (cam : Camera) : State * Camera :=
  if isScanning s then startScanning p started s cam else (s, cam).

Definition commit (p : Props) (started : bool) (prev : State)
  (sc : State * Camera) : State * Camera :=
  if Facing_eqb (facingMode sc.1) (facingMode prev) then sc
  else facingModeEffect p started sc.1 sc.2.

(** The camera button pressed: the handler up to its [await], the commit
    with the effect, then the rest of the handler. *)
Definition switchCamera (p : Props) (switched started : bool) (s : State)
  (cam : Camera) : State * Camera :=
  let '(s', cam') := commit p started s (toggleCamera s, cam) in
  (toggleCamera_resume (bool_decide (is_Some (qrScannerRef s))) switched s',
   cam').

End LiveScanner.

(** ** The two assemblies: [UserDashboard] around either scanner

    [UserDashboard] renders [<QRScanner onScan={handleQRScan}
    loading={loading} disabled={loading || isCooldownActive} />].  Events
    are handled one at a time, each followed by React's commit. *)

Definition disabled_in (r : UserDashboard.State) : bool :=
  UserDashboard.loading r || UserDashboard.isCooldownActive r.

Module DemoApp.

Record World := mkWorld {
  rt : UserDashboard.Runtime;
  scanner : DemoScanner.State;
  cam : Camera
}.

Definition initial : World :=
  {| rt := UserDashboard.boot; scanner := DemoScanner.initial;
     cam := {| live := ∅; next := 0 |} |}.

Inductive Event :=
| PressMain (granted : bool)
| PressCamera (granted : bool)
| ClickVideo (rnd : nat)
| Settle (i : nat) (o : Backend.Settled)
| Tick.

Section Step.

Variable userId : Z.

Definition with_scanner (w : World) (sc : DemoScanner.State * Camera)
  : World :=
  {| rt := rt w; scanner := sc.1; cam := sc.2 |}.

Definition with_rt (w : World) (rt' : UserDashboard.Runtime) : World :=
  {| rt := rt'; scanner := scanner w; cam := cam w |}.

(** The main button runs [isScanning ? stopScanning : startScanning];
    the camera button exists only while scanning; both are inert while
    [disabled].  The video element exists only while scanning. *)
Definition step (w : World) (e : Event) : World :=
  let r := UserDashboard.ui (rt w) in
  match e with
  | PressMain granted =>
      if disabled_in r then w
      else if DemoScanner.isScanning (scanner w)
           then with_scanner w (DemoScanner.stopScanning (scanner w) (cam w))
           else with_scanner w
                  (DemoScanner.startScanning granted (scanner w) (cam w))
  | PressCamera granted =>
      if DemoScanner.isScanning (scanner w) && negb (disabled_in r)
      then with_scanner w
             (DemoScanner.switchCamera granted (scanner w) (cam w))
      else w
  | ClickVideo rnd =>
      match DemoScanner.handleVideoClick (scanner w)
              (UserDashboard.loading r) rnd with
      | Some qrData => with_rt w (UserDashboard.onScan userId qrData (rt w))
      | None => w
      end
  | Settle i o => with_rt w (UserDashboard.settle i o (rt w))
  | Tick => with_rt w (UserDashboard.tick (rt w))
  end.

Definition steps (w : World) (es : list Event) : World :=
  foldl step w es.

End Step.

(** At most one call is pending, and the loading flag is up while one
    is. *)
Definition single_flight (w : World) : Prop :=
  (length (UserDashboard.inflight (rt w)) <= 1)%nat
  /\ (UserDashboard.inflight (rt w) <> [] ->
      UserDashboard.loading (UserDashboard.ui (rt w)) = true).

End DemoApp.

Module LiveApp.

Record World := mkWorld {
  rt : UserDashboard.Runtime;
  scanner : LiveScanner.State;
  cam : Camera
}.

Definition initial : World :=
  {| rt := UserDashboard.boot; scanner := LiveScanner.initial;
     cam := {| live := ∅; next := 0 |} |}.

(** [Decode data] is the library reporting a decoded symbol. *)
Inductive Event :=
| PressMain (started : bool)
| PressCamera (switched started : bool)
| Decode (data : jsstring)
| Settle (i : nat) (o : Backend.Settled)
| Tick.

Section Step.

Variable userId : Z.

Definition with_scanner (w : World) (sc : LiveScanner.State * Camera)
  : World :=
  {| rt := rt w; scanner := sc.1; cam := sc.2 |}.

Definition with_rt (w : World) (rt' : UserDashboard.Runtime) : World :=
  {| rt := rt'; scanner := scanner w; cam := cam w |}.

(** The object in [qrScannerRef] reports decodes while its camera runs;
    each report goes to the callback the object was built with. *)
Definition step (w : World) (e : Event) : World :=
  let r := UserDashboard.ui (rt w) in
  let p := LiveScanner.props_of r in
  match e with
  | PressMain started =>
      if LiveScanner.disabled p then w
      else if LiveScanner.isScanning (scanner w)
           then with_scanner w (LiveScanner.stopScanning (scanner w) (cam w))
           else with_scanner w
                  (LiveScanner.startScanning p started (scanner w) (cam w))
  | PressCamera switched started =>
      if LiveScanner.isScanning (scanner w) && negb (LiveScanner.disabled p)
      then with_scanner w
             (LiveScanner.switchCamera p switched started
                (scanner w) (cam w))
      else w
  | Decode data =>
      match LiveScanner.qrScannerRef (scanner w) with
      | Some q =>
          if bool_decide (LiveScanner.oid q ∈ live (cam w)) then
            match LiveScanner.onDecode q data with
            | Some (closure, qrData) =>
                with_rt w
                  (UserDashboard.onScan_of userId closure qrData (rt w))
            | None => w
            end
          else w
      | None => w
      end
  | Settle i o => with_rt w (UserDashboard.settle i o (rt w))
  | Tick => with_rt w (UserDashboard.tick (rt w))
  end.

Definition steps (w : World) (es : list Event) : World :=
  foldl step w es.

End Step.

(** The callback of the object in [qrScannerRef] was built in a render
    that was neither disabled nor in a cooldown. *)
Definition callback_open (w : World) : Prop :=
  forall q, LiveScanner.qrScannerRef (scanner w) = Some q ->
            LiveScanner.cb_disabled q = false
            /\ UserDashboard.isCooldownActive (LiveScanner.cb_onScan q) = false.

End LiveApp.

(** ** Runs of the dashboard alone

    The events that reach [UserDashboard]: a decode event handed to the
    [handleQRScan] of some render [r] (the current one or an older one), a
    pending call settling, and the interval firing. *)

Module DashboardRun.

Inductive Event :=
| Scan (r : UserDashboard.State) (qrData : jsstring)
| Settle (i : nat) (o : Backend.Settled)
| Tick.

Definition step (userId : Z) (rt : UserDashboard.Runtime) (e : Event)
  : UserDashboard.Runtime :=
  match e with
  | Scan r qrData => UserDashboard.onScan_of userId r qrData rt
  | Settle i o => UserDashboard.settle i o rt
  | Tick => UserDashboard.tick rt
  end.

Definition steps (userId : Z) (rt : UserDashboard.Runtime)
  (es : list Event) : UserDashboard.Runtime :=
  foldl (step userId) rt es.

(** The active flag and the interval both mirror [cooldownTimer > 0]. *)
Definition coherent (rt : UserDashboard.Runtime) : Prop :=
  UserDashboard.isCooldownActive (UserDashboard.ui rt)
    = (0 <? UserDashboard.cooldownTimer (UserDashboard.ui rt))
  /\ UserDashboard.interval rt
     = (0 <? UserDashboard.cooldownTimer (UserDashboard.ui rt)).

End DashboardRun.

(** ** The result panel of [UserDashboard]

    The JSX under [{scanResult && ...}]: the class of the panel and the
    heading inside it. *)

Module ResultPanel.

(** [bg-green-50], [bg-orange-50], [bg-red-50]. *)
Inductive Colour := green | orange | red.

(** ['Rozpoczęto pracę'], ['Zakończono pracę'], ['Brak dostępu'],
    ['Błąd']. *)
Inductive Heading := WorkStarted | WorkEnded | NoAccess | Failure.

(** [scanResult.success ? green : scanResult.isCooldown ? orange
     : scanResult.isUnauthorized ? red : red] *)
Definition colour (sr : UserDashboard.ScanResult) : Colour :=
  if UserDashboard.success sr then green
  else if UserDashboard.is_true (UserDashboard.isCooldown sr) then orange
  else if UserDashboard.is_true (UserDashboard.isUnauthorized sr) then red
  else red.

(** [scanResult.success
       ? (scanResult.action === 'check_in' ? started : ended)
       : scanResult.isUnauthorized ? 'Brak dostępu' : 'Błąd'] *)
Definition heading (sr : UserDashboard.ScanResult) : Heading :=
  if UserDashboard.success sr then
    if bool_decide (UserDashboard.action sr = Some (lit "check_in"))
    then WorkStarted else WorkEnded
  else if UserDashboard.is_true (UserDashboard.isUnauthorized sr)
       then NoAccess
       else Failure.

End ResultPanel.

(** ** [startScanning] of [QRScanner.js] around its [await]

    Between the call of [getUserMedia] and its answer other handlers can
    run.  [videoRef.current] is the video element, which the JSX mounts
    only while [isScanning] is true. *)

Module DemoStart.

(** Up to the [await]: [setError(null); setIsScanning(true)]. *)
Definition startScanning_begin (s : DemoScanner.State) : DemoScanner.State :=
  {| DemoScanner.isScanning := true; DemoScanner.error := None;
     DemoScanner.facingMode := DemoScanner.facingMode s;
     DemoScanner.streamRef := DemoScanner.streamRef s |}.

(** From the [await] on, in the state [s] the component has by then: the
    stream is opened by the browser when granted, and kept in [streamRef]
    only [if (videoRef.current)]; a refusal runs the [catch]. *)
Definition startScanning_resume (granted : bool) (s : DemoScanner.State)
  (cam : Camera) : DemoScanner.State * Camera :=
  if granted then
    let '(stream, cam') := acquire cam in
    if DemoScanner.isScanning s then
      ({| DemoScanner.isScanning := DemoScanner.isScanning s;
          DemoScanner.error := DemoScanner.error s;
          DemoScanner.facingMode := DemoScanner.facingMode s;
          DemoScanner.streamRef := Some stream |}, cam')
    else (s, cam')
  else
    ({| DemoScanner.isScanning := false;
        DemoScanner.error := Some DemoScanner.camera_error;
        DemoScanner.facingMode := DemoScanner.facingMode s;
        DemoScanner.streamRef := DemoScanner.streamRef s |}, cam).

End DemoStart.

(** ** Who holds the camera, in the two assemblies *)

(** Click-driven scanner: the open streams are exactly the one in
    [streamRef], and the scanner scans exactly when it holds one. *)
Definition demo_camera_held (w : DemoApp.World) : Prop :=
  live (DemoApp.cam w)
    = match DemoScanner.streamRef (DemoApp.scanner w) with
      | Some stream => {[ stream ]}
      | None => ∅
      end
  /\ (DemoScanner.isScanning (DemoApp.scanner w) = true
      <-> is_Some (DemoScanner.streamRef (DemoApp.scanner w))).

(** Library scanner: the only object whose camera runs is the one in
    [qrScannerRef], and it runs exactly while the scanner scans. *)
Definition live_camera_held (w : LiveApp.World) : Prop :=
  live (LiveApp.cam w)
    = match LiveScanner.qrScannerRef (LiveApp.scanner w) with
      | Some q =>
          if LiveScanner.isScanning (LiveApp.scanner w)
          then {[ LiveScanner.oid q ]} else ∅
      | None => ∅
      end
  /\ (LiveScanner.isScanning (LiveApp.scanner w) = true ->
      is_Some (LiveScanner.qrScannerRef (LiveApp.scanner w))).

(** ** The browser: [localStorage] and [window.location] *)

Record Browser := mkBrowser {
  localStorage : gmap string jsstring;
  href : jsstring
}.

(** Truthiness of what [localStorage.getItem] returns: [null] and the empty
    string are falsy. *)
Definition truthy_item (v : option jsstring) : bool :=
  match v with
  | Some (_ :: _) => true
  | _ => false
  end.

(** ** [PanelApp] *)

Module PanelApp.

(** A truthy value held in the [user] state, seen through the keys the
    components read (those of [mockData.users]); a key the value does not
    have is [None].  The user object the login hands over has them; a
    number or an empty object has none. *)
Record User := mkUser {
  id : option Z;
  username : option jsstring;
  type : option jsstring;
  role : option jsstring;
  company_id : option Z;
  company_name : option jsstring
}.

(** What [JSON.parse] does with a text: it throws a [SyntaxError], or it
    returns a value, which is falsy ([null], [false], [0], the empty
    string: [Value None]) or truthy ([Value (Some u)]). *)
Inductive Parsed :=
| SyntaxError
| Value (v : option User).

Record State := mkState {
  user : option User;
  loading : bool
}.

Definition initial : State := {| user := None; loading := true |}.

Section Session.

(** [JSON.stringify] on user objects and [JSON.parse] on stored texts. *)
Variable JSON_stringify : User -> jsstring.
Variable JSON_parse : jsstring -> Parsed.

(** [checkAuthStatus], run once by the mount effect. *)
Definition checkAuthStatus (st : State) (b : Browser) : State * Browser :=
  let token := localStorage b !! "token" in
  let '(user', b') :=
    if truthy_item token then
      let storedUser := localStorage b !! "user" in
      if truthy_item storedUser then
        match JSON_parse (default [] storedUser) with
        | Value v => (v, b)
        | SyntaxError =>
            (user st,
             {| localStorage := delete "token" (localStorage b);
                href := href b |})
        end
      else
        (user st,
         {| localStorage := delete "token" (localStorage b);
            href := href b |})
    else (user st, b) in
  ({| user := user'; loading := false |}, b').

Definition handleLogin (userData : User) (token : jsstring) (st : State)
  (b : Browser) : State * Browser :=
  ({| user := Some userData; loading := loading st |},
   {| localStorage :=
        <["user" := JSON_stringify userData]>
          (<["token" := token]> (localStorage b));
      href := href b |}).

Definition handleLogout (st : State) (b : Browser) : State * Browser :=
  ({| user := None; loading := loading st |},
   {| localStorage := delete "user" (delete "token" (localStorage b));
      href := href b |}).

End Session.

(** What the component returns. *)
Inductive View :=
| Spinner
| LoginPage
| OwnerDashboard
| AdminDashboard
| ScannerDashboard.

Definition view (st : State) : View :=
  if loading st then Spinner
  else match user st with
       | None => LoginPage
       | Some u =>
           if bool_decide (type u = Some (lit "owner")) then OwnerDashboard
           else if bool_decide (role u = Some (lit "admin"))
                then AdminDashboard
                else ScannerDashboard
       end.

End PanelApp.

(** ** [services/api.js] *)

Module Api.

(** The request interceptor, on the headers of the request. *)
Definition requestInterceptor (b : Browser) (headers : gmap string jsstring)
  : gmap string jsstring :=
  let token := localStorage b !! "token" in
  if truthy_item token
  then <["Authorization" := lit "Bearer " ++ default [] token]> headers
  else headers.

(** [error.response?.status] of a failed call. *)
Record Error := mkError {
  status : option Z
}.

(** The error branch of the response interceptor; the promise it returns
    is rejected with the same error in every case. *)
Definition responseErrorInterceptor (error : Error) (b : Browser) : Browser :=
  if bool_decide (status error = Some 401) then
    {| localStorage := delete "user" (delete "token" (localStorage b));
       href := lit "/panel" |}
  else b.

(** The character class [[a-zA-Z0-9]] on a code unit. *)
Definition isAlnum (c : N) : bool :=
  ((97 <=? c) && (c <=? 122) || (65 <=? c) && (c <=? 90)
   || (48 <=? c) && (c <=? 57))%N.

(** [employeeName.replace(/[^a-zA-Z0-9]/g, '_')] in [downloadQRPDF]. *)
Definition safeName (employeeName : jsstring) : jsstring :=
  (fun c => if isAlnum c then c else 95%N) <$> employeeName.

(** [link.download], [`qr_code_${safeName}.pdf`]. *)
Definition download (employeeName : jsstring) : jsstring :=
  lit "qr_code_" ++ safeName employeeName ++ lit ".pdf".

End Api.

(** ** The user form of [OwnerDashboard] *)

Module OwnerDashboard.

(** The values found in the form and in a user row. *)
Inductive JSval :=
| JNull
| JStr (s : jsstring)
| JNum (n : Z).

(** Truthiness; a missing key ([undefined]) is falsy. *)
Definition truthy_val (v : option JSval) : bool :=
  match v with
  | Some (JStr (_ :: _)) => true
  | Some (JNum n) => negb (n =? 0)
  | _ => false
  end.

Record User := mkUser {
  id : Z;
  username : jsstring;
  type : jsstring;
  company_id : JSval
}.

(** [handleEditUser]: the form the modal opens with. *)
Definition handleEditUser (u : User) : gmap string JSval :=
  <["username" := JStr (username u)]>
    (<["password" := JStr []]>
       (<["type" := JStr (type u)]>
          (<["company_id" :=
               if truthy_val (Some (company_id u)) then company_id u
               else JStr []]> ∅))).

(** The [onChange] of an input: [{ ...userForm, [field]: e.target.value }]. *)
Definition onChange (field : string) (value : jsstring)
  (userForm : gmap string JSval) : gmap string JSval :=
  <[field := JStr value]> userForm.

(** The call [handleUserSubmit] makes. *)
Inductive Call :=
| usersAPI_update (id : Z) (userData : gmap string JSval)
| usersAPI_create (userData : gmap string JSval).

Definition handleUserSubmit (editingUser : option User)
  (userForm : gmap string JSval) : Call :=
  let userData := userForm in
  let userData :=
    if truthy_val (userData !! "company_id") then userData
    else <["company_id" := JNull]> userData in
  match editingUser with
  | Some u =>
      let userData :=
        if truthy_val (userData !! "password") then userData
        else delete "password" userData in
      usersAPI_update (id u) userData
  | None => usersAPI_create userData
  end.

(** The object a call carries. *)
Definition payload (c : Call) : gmap string JSval :=
  match c with
  | usersAPI_update _ userData | usersAPI_create userData => userData
  end.

End OwnerDashboard.

(** ** Sample inputs *)

Definition sample_user : Z := 3.

Definition sample_qr : jsstring := lit "QR-EMP-001".

(** A dashboard in the middle of a cooldown with [n] seconds left. *)
Definition cooling (n : Z) : UserDashboard.Runtime :=
  {| UserDashboard.ui :=
       {| UserDashboard.scanResult := None;
          UserDashboard.loading := false;
          UserDashboard.cooldownTimer := n;
          UserDashboard.isCooldownActive := true |};
     UserDashboard.interval := true;
     UserDashboard.inflight := [] |}.

(** A dashboard with one submission pending. *)
Definition submitting : UserDashboard.Runtime :=
  UserDashboard.onScan sample_user sample_qr UserDashboard.boot.

(** An accepted check-in that asks for five seconds of cooldown. *)
Definition sample_accept : Backend.Result :=
  {| Backend.success := true;
     Backend.action := Some (lit "check_in");
     Backend.employee_name := Some (lit "Jan Kowalski");
     Backend.time := Some (lit "08:00:00");
     Backend.message := lit "OK";
     Backend.cooldown_seconds := Some 5 |}.

(** A refusal whose message asks to wait. *)
Definition sample_wait : Backend.Result :=
  {| Backend.success := false;
     Backend.action := None; Backend.employee_name := None;
     Backend.time := None;
     Backend.message := lit "Musisz " ++ poczekac ++ lit " 3 sekund";
     Backend.cooldown_seconds := Some 3 |}.

(** A refusal for a badge of another company, without cooldown. *)
Definition sample_foreign : Backend.Result :=
  {| Backend.success := false;
     Backend.action := None; Backend.employee_name := None;
     Backend.time := None;
     Backend.message := lit "Kod QR nie nalezy do Twojej firmy";
     Backend.cooldown_seconds := None |}.

(** The third user of [mockData.users]. *)
Definition sample_panel_user : PanelApp.User :=
  {| PanelApp.id := Some 3; PanelApp.username := Some (lit "user");
     PanelApp.type := Some (lit "user"); PanelApp.role := Some (lit "user");
     PanelApp.company_id := Some 1;
     PanelApp.company_name := Some (lit "Firma ABC") |}.

Definition sample_token : jsstring := lit "abc.def.ghi".

Definition empty_browser : Browser :=
  {| localStorage := ∅; href := lit "/panel" |}.

(** * Properties *)

(** ** Strings *)

Lemma startsWith_spec (s t : jsstring) :
  startsWith s t = true <-> exists suf, s = t ++ suf.
Proof.
  revert s. induction t as [|b t IH]; intros s; simpl.
  - split; [intros _; by exists s | done].
  - destruct s as [|a s]; simpl.
    + split; [done | intros [suf H]; discriminate].
    + rewrite andb_true_iff, N.eqb_eq, IH. split.
      * intros [-> [suf ->]]. eauto.
      * intros [suf H]. injection H as -> ->. eauto.
Qed.

Lemma includes_spec (s t : jsstring) :
  includes s t = true <-> exists pre suf, s = pre ++ t ++ suf.
Proof.
  induction s as [|a s IH]; simpl.
  - rewrite orb_false_r, startsWith_spec. split.
    + intros [suf H]. exists [], suf. done.
    + intros [pre [suf H]]. destruct pre; [eauto | discriminate].
  - rewrite orb_true_iff, IH, startsWith_spec. split.
    + intros [[suf H] | [pre [suf H]]].
      * exists [], suf. done.
      * exists (a :: pre), suf. simpl. congruence.
    + intros [pre [suf H]]. destruct pre as [|a' pre]; simpl in H.
      * left. eauto.
      * right. injection H as _ ->. eauto.
Qed.

(** The message of the local rejection itself reads as a wait message. *)
Lemma wait_message_includes_poczekac (timer : Z) :
  includes (UserDashboard.wait_message timer) poczekac = true.
Proof.
  apply includes_spec. unfold UserDashboard.wait_message.
  exists (lit "Musisz "). eexists. reflexivity.
Qed.

(** ** Commands and commit: what they leave alone *)

Section Frames.

Import UserDashboard.

Lemma run_app (cs1 cs2 : list Cmd) (rt : Runtime) :
  run (cs1 ++ cs2) rt = run cs2 (run cs1 rt).
Proof. unfold run. apply foldl_app. Qed.

Lemma commit_inflight prev rt : inflight (commit prev rt) = inflight rt.
Proof.
  unfold commit, cooldownCleanup, cooldownEffect.
  repeat case_match; reflexivity.
Qed.

Lemma commit_loading prev rt :
  loading (ui (commit prev rt)) = loading (ui rt).
Proof.
  unfold commit, cooldownCleanup, cooldownEffect.
  repeat case_match; reflexivity.
Qed.

Lemma commit_scanResult prev rt :
  scanResult (ui (commit prev rt)) = scanResult (ui rt).
Proof.
  unfold commit, cooldownCleanup, cooldownEffect.
  repeat case_match; reflexivity.
Qed.

Lemma commit_cooldownTimer prev rt :
  cooldownTimer (ui (commit prev rt)) = cooldownTimer (ui rt).
Proof.
  unfold commit, cooldownCleanup, cooldownEffect.
  repeat case_match; reflexivity.
Qed.

(** No effect runs when the counter is the one of the previous render. *)
Lemma commit_same prev rt :
  cooldownTimer (ui rt) = cooldownTimer prev -> commit prev rt = rt.
Proof. intros H. unfold commit. rewrite H, Z.eqb_refl. reflexivity. Qed.

(** After an effect run the flag and the interval mirror the counter. *)
Lemma commit_changed prev rt :
  cooldownTimer (ui rt) <> cooldownTimer prev ->
  isCooldownActive (ui (commit prev rt)) = (0 <? cooldownTimer (ui rt))
  /\ interval (commit prev rt) = (0 <? cooldownTimer (ui rt)).
Proof.
  intros H. unfold commit, cooldownCleanup, cooldownEffect.
  apply Z.eqb_neq in H. rewrite H. destruct rt as [r registered pending].
  simpl. destruct registered, (0 <? cooldownTimer r); split; reflexivity.
Qed.

End Frames.

(** ** The scan handler under an active cooldown *)

(** The whole effect of a decode event on a handler whose render has the
    cooldown active is one [setScanResult]; no effect follows. *)
Lemma onScan_of_holding (userId : Z) (r : UserDashboard.State)
  (qrData : jsstring) (rt : UserDashboard.Runtime) :
  UserDashboard.isCooldownActive r = true ->
  UserDashboard.onScan_of userId r qrData rt
  = {| UserDashboard.ui :=
         {| UserDashboard.scanResult :=
              Some {| UserDashboard.success := false;
                      UserDashboard.action := None;
                      UserDashboard.employee := None;
                      UserDashboard.time := None;
                      UserDashboard.message :=
                        UserDashboard.wait_message
                          (UserDashboard.cooldownTimer r);
                      UserDashboard.cooldown_seconds := None;
                      UserDashboard.isUnauthorized := None;
                      UserDashboard.isCooldown := Some true |};
            UserDashboard.loading :=
              UserDashboard.loading (UserDashboard.ui rt);
            UserDashboard.cooldownTimer :=
              UserDashboard.cooldownTimer (UserDashboard.ui rt);
            UserDashboard.isCooldownActive :=
              UserDashboard.isCooldownActive (UserDashboard.ui rt) |};
       UserDashboard.interval := UserDashboard.interval rt;
       UserDashboard.inflight := UserDashboard.inflight rt |}.
Proof.
  intros Hactive.
  unfold UserDashboard.onScan_of, UserDashboard.handleQRScan.
  rewrite Hactive, commit_same by reflexivity. reflexivity.
Qed.

(** The handler on its own: the [handleQRScan] of a render where the
    cooldown is active sends no [processScan] request, whatever the state
    is by the time it is called: its commands contain none and the pending
    calls are unchanged.  What it does instead is show a rejection of the
    cooldown kind whose message contains the counter of that render, as
    printed. *)
Lemma cooldown_active_no_submission
  (userId : Z) (r : UserDashboard.State) (qrData : jsstring)
  (rt : UserDashboard.Runtime) :
  UserDashboard.isCooldownActive r = true ->
  Z.abs (UserDashboard.cooldownTimer r) < 10 ^ 21 ->
  let rt' := UserDashboard.onScan_of userId r qrData rt in
  (forall q u,
      UserDashboard.processScan q u
        ∉ UserDashboard.handleQRScan userId r qrData)
  /\ UserDashboard.inflight rt' = UserDashboard.inflight rt
  /\ exists sr,
       UserDashboard.scanResult (UserDashboard.ui rt') = Some sr
       /\ UserDashboard.kind sr = UserDashboard.RejectedCooldown
       /\ exists pre suf,
            UserDashboard.message sr
            = pre ++ Number_toString (UserDashboard.cooldownTimer r) ++ suf.
Proof.
  intros Hactive _ rt'. subst rt'.
  rewrite (onScan_of_holding userId r qrData rt Hactive).
  split; [|split].
  - unfold UserDashboard.handleQRScan. rewrite Hactive.
    intros q u Hin. apply list_elem_of_singleton in Hin. discriminate.
  - reflexivity.
  - simpl. eexists. split; [reflexivity|].
    split; [reflexivity|]. simpl. unfold UserDashboard.wait_message.
    exists (lit "Musisz " ++ poczekac ++ lit " "). eexists.
    rewrite <- !app_assoc. reflexivity.
Qed.

Lemma cooldown_active_no_submission_witness :
  UserDashboard.isCooldownActive (UserDashboard.ui (cooling 3)) = true
  /\ Z.abs (UserDashboard.cooldownTimer (UserDashboard.ui (cooling 3)))
     < 10 ^ 21
  /\ UserDashboard.inflight
       (UserDashboard.onScan sample_user sample_qr (cooling 3))
     = UserDashboard.inflight (cooling 3).
Proof.
  assert (Hsmall : Z.abs (UserDashboard.cooldownTimer
                            (UserDashboard.ui (cooling 3))) < 10 ^ 21)
    by reflexivity.
  split; [reflexivity|]. split; [exact Hsmall|].
  apply (cooldown_active_no_submission sample_user
           (UserDashboard.ui (cooling 3)) sample_qr (cooling 3)
           eq_refl Hsmall).
Defined.

(** Read the other way round: a request among the handler's commands
    means that its render had no active cooldown. *)
Lemma submission_only_when_inactive
  (userId : Z) (r : UserDashboard.State) (qrData q : jsstring) (u : Z) :
  UserDashboard.processScan q u ∈ UserDashboard.handleQRScan userId r qrData ->
  UserDashboard.isCooldownActive r = false.
Proof.
  destruct (UserDashboard.isCooldownActive r) eqn:Hactive; [|done].
  intros Hin. exfalso.
  unfold UserDashboard.handleQRScan in Hin. rewrite Hactive in Hin.
  apply list_elem_of_singleton in Hin. discriminate.
Qed.

(** C10. The local rejection changes nothing but the displayed result:
    counter, active flag, loading flag, interval and pending calls are the
    ones from before. *)
Theorem cooldown_rejection_frame
  (userId : Z) (r : UserDashboard.State) (qrData : jsstring)
  (rt : UserDashboard.Runtime) :
  UserDashboard.isCooldownActive r = true ->
  let rt' := UserDashboard.onScan_of userId r qrData rt in
  UserDashboard.cooldownTimer (UserDashboard.ui rt')
    = UserDashboard.cooldownTimer (UserDashboard.ui rt)
  /\ UserDashboard.isCooldownActive (UserDashboard.ui rt')
     = UserDashboard.isCooldownActive (UserDashboard.ui rt)
  /\ UserDashboard.loading (UserDashboard.ui rt')
     = UserDashboard.loading (UserDashboard.ui rt)
  /\ UserDashboard.interval rt' = UserDashboard.interval rt
  /\ UserDashboard.inflight rt' = UserDashboard.inflight rt.
Proof.
  intros Hactive rt'. subst rt'.
  rewrite (onScan_of_holding userId r qrData rt Hactive).
  repeat split.
Qed.

Lemma cooldown_rejection_frame_witness :
  UserDashboard.isCooldownActive (UserDashboard.ui (cooling 3)) = true
  /\ UserDashboard.cooldownTimer
       (UserDashboard.ui
          (UserDashboard.onScan sample_user sample_qr (cooling 3))) = 3.
Proof.
  split; [reflexivity|].
  apply (cooldown_rejection_frame sample_user
           (UserDashboard.ui (cooling 3)) sample_qr (cooling 3)).
  reflexivity.
Defined.

(** ** Responses *)

(** What [settle] leaves in the state: the commands of the resumed handler
    run on the state without the settled call, then the commit. *)
Lemma settle_pending (i : nat) (o : Backend.Settled)
  (rt : UserDashboard.Runtime) :
  is_Some (UserDashboard.inflight rt !! i) ->
  UserDashboard.settle i o rt
  = UserDashboard.commit (UserDashboard.ui rt)
      (UserDashboard.run (UserDashboard.handleQRScan_resume o)
         {| UserDashboard.ui := UserDashboard.ui rt;
            UserDashboard.interval := UserDashboard.interval rt;
            UserDashboard.inflight := delete i (UserDashboard.inflight rt) |}).
Proof. intros [x Hx]. unfold UserDashboard.settle. rewrite Hx. done. Qed.

Lemma run_arm_scanResult v rt :
  UserDashboard.scanResult (UserDashboard.ui
    (UserDashboard.run (UserDashboard.arm v) rt))
  = UserDashboard.scanResult (UserDashboard.ui rt).
Proof. destruct v as [n|]; simpl; [destruct (n =? 0)|]; reflexivity. Qed.

Lemma run_arm_loading v rt :
  UserDashboard.loading (UserDashboard.ui
    (UserDashboard.run (UserDashboard.arm v) rt))
  = UserDashboard.loading (UserDashboard.ui rt).
Proof. destruct v as [n|]; simpl; [destruct (n =? 0)|]; reflexivity. Qed.

Lemma run_arm_inflight v rt :
  UserDashboard.inflight (UserDashboard.run (UserDashboard.arm v) rt)
  = UserDashboard.inflight rt.
Proof. destruct v as [n|]; simpl; [destruct (n =? 0)|]; reflexivity. Qed.

(** A falsy [cooldown_seconds] arms nothing. *)
Lemma arm_falsy v : truthy v = false -> UserDashboard.arm v = [].
Proof. destruct v as [n|]; simpl; [intros ->|]; reflexivity. Qed.

(** The state a settled call leaves behind, field by field. *)
Lemma settle_fields (i : nat) (o : Backend.Settled)
  (rt : UserDashboard.Runtime) :
  is_Some (UserDashboard.inflight rt !! i) ->
  let rt' := UserDashboard.settle i o rt in
  UserDashboard.loading (UserDashboard.ui rt') = false
  /\ UserDashboard.inflight rt' = delete i (UserDashboard.inflight rt)
  /\ UserDashboard.scanResult (UserDashboard.ui rt')
     = Some match o with
            | Backend.Resolved result => UserDashboard.outcome result
            | Backend.Thrown => UserDashboard.connection_error
            end.
Proof.
  intros Hi rt'. subst rt'. rewrite (settle_pending _ _ _ Hi).
  rewrite commit_loading, commit_inflight, commit_scanResult.
  unfold UserDashboard.handleQRScan_resume.
  destruct o as [result|]; [|done].
  rewrite !run_app. split; [reflexivity|].
  change (UserDashboard.run [UserDashboard.setLoading false] ?x)
    with (UserDashboard.exec x (UserDashboard.setLoading false)).
  simpl UserDashboard.exec. unfold UserDashboard.with_ui. simpl.
  rewrite run_arm_inflight, run_arm_scanResult. done.
Qed.

(** C3. Every response to a pending submission is shown as the object
    [outcome result].  A success is of the accepted kind, carries the
    action, employee name, time and message of the response and has
    neither rejection flag.  A failure has both flags set to booleans that
    are each other's negation: [isCooldown] is true exactly when the
    message contains ['poczekać'] and [isUnauthorized] is true exactly when
    it does not.  Accordingly it is of the cooldown kind in the first case,
    of the unauthorized kind in the second, and of one of these two kinds
    in any case. *)
Theorem response_outcome
  (result : Backend.Result) (i : nat) (rt : UserDashboard.Runtime) :
  is_Some (UserDashboard.inflight rt !! i) ->
  let sr := UserDashboard.outcome result in
  UserDashboard.scanResult
    (UserDashboard.ui (UserDashboard.settle i (Backend.Resolved result) rt))
  = Some sr
  /\ (Backend.success result = true ->
      UserDashboard.kind sr = UserDashboard.Accepted
      /\ UserDashboard.action sr = Backend.action result
      /\ UserDashboard.employee sr = Backend.employee_name result
      /\ UserDashboard.time sr = Backend.time result
      /\ UserDashboard.message sr = Backend.message result
      /\ UserDashboard.isCooldown sr = None
      /\ UserDashboard.isUnauthorized sr = None)
  /\ (Backend.success result = false ->
      (exists b : bool,
         UserDashboard.isCooldown sr = Some b
         /\ UserDashboard.isUnauthorized sr = Some (negb b)
         /\ (b = true
             <-> exists pre suf,
                   Backend.message result = pre ++ poczekac ++ suf))
      /\ (UserDashboard.isCooldown sr = Some true
          <-> exists pre suf, Backend.message result = pre ++ poczekac ++ suf)
      /\ (UserDashboard.isUnauthorized sr = Some true
          <-> ~ exists pre suf,
                  Backend.message result = pre ++ poczekac ++ suf)
      /\ (UserDashboard.kind sr = UserDashboard.RejectedCooldown
       <-> exists pre suf, Backend.message result = pre ++ poczekac ++ suf)
      /\ (UserDashboard.kind sr = UserDashboard.RejectedUnauthorized
          <-> ~ exists pre suf, Backend.message result = pre ++ poczekac ++ suf)
      /\ (UserDashboard.kind sr = UserDashboard.RejectedCooldown
          \/ UserDashboard.kind sr = UserDashboard.RejectedUnauthorized)
      /\ UserDashboard.message sr = Backend.message result).
Proof.
  intros Hi sr. subst sr. split; [|split].
  - apply (settle_fields i (Backend.Resolved result) rt Hi).
  - intros Hs. unfold UserDashboard.outcome, UserDashboard.kind.
    rewrite Hs. done.
  - intros Hs. unfold UserDashboard.outcome, UserDashboard.kind.
    rewrite Hs. setoid_rewrite <- includes_spec.
    destruct (includes (Backend.message result) poczekac); simpl.
    + split; [exists true; repeat split; done|].
      repeat split; auto; done.
    + split; [exists false; repeat split; done|].
      repeat split; auto; done.
Qed.

Lemma response_outcome_witness :
  is_Some (UserDashboard.inflight submitting !! 0%nat)
  /\ UserDashboard.scanResult
       (UserDashboard.ui
          (UserDashboard.settle 0 (Backend.Resolved sample_wait) submitting))
     = Some (UserDashboard.outcome sample_wait).
Proof.
  assert (H : is_Some (UserDashboard.inflight submitting !! 0%nat))
    by (eexists; reflexivity).
  split; [exact H|].
  apply (response_outcome sample_wait 0 submitting H).
Defined.

(** The three sample responses fall into the three kinds. *)
Example sample_kinds :
  UserDashboard.kind (UserDashboard.outcome sample_accept)
    = UserDashboard.Accepted
  /\ UserDashboard.kind (UserDashboard.outcome sample_wait)
     = UserDashboard.RejectedCooldown
  /\ UserDashboard.kind (UserDashboard.outcome sample_foreign)
     = UserDashboard.RejectedUnauthorized
  /\ UserDashboard.isUnauthorized (UserDashboard.outcome sample_wait)
     = Some false
  /\ UserDashboard.isCooldown (UserDashboard.outcome sample_foreign)
     = Some false.
Proof. repeat split. Qed.

(** ** The cooldown governor *)

(** C4. Arming with [n] and then with [m], each of them a duration that
    passes the guard [if (result.cooldown_seconds)], leaves the counter at
    [m]; it is not the sum [n + m].  This holds with a commit between the
    two calls and with both calls in one batch. *)
Theorem arm_replaces (rt : UserDashboard.Runtime) (n m : Z) :
  n <> 0 -> m <> 0 ->
  let rt' := UserDashboard.armed (Some m) (UserDashboard.armed (Some n) rt) in
  let batch :=
    UserDashboard.run (UserDashboard.arm (Some n) ++ UserDashboard.arm (Some m))
      rt in
  UserDashboard.cooldownTimer (UserDashboard.ui rt') = m
  /\ UserDashboard.cooldownTimer (UserDashboard.ui rt') <> n + m
  /\ UserDashboard.cooldownTimer (UserDashboard.ui batch) = m.
Proof.
  intros Hn Hm rt' batch. subst rt' batch.
  unfold UserDashboard.armed.
  rewrite !commit_cooldownTimer. unfold UserDashboard.arm, truthy.
  apply Z.eqb_neq in Hn as Hn'. apply Z.eqb_neq in Hm as Hm'.
  rewrite Hn', Hm'. simpl. repeat split. lia.
Qed.

Lemma arm_replaces_witness :
  5 <> 0 /\ 3 <> 0
  /\ UserDashboard.cooldownTimer
       (UserDashboard.ui
          (UserDashboard.armed (Some 3)
             (UserDashboard.armed (Some 5) UserDashboard.boot))) = 3.
Proof.
  assert (H5 : 5 <> 0) by lia.
  assert (H3 : 3 <> 0) by lia.
  split; [exact H5|]. split; [exact H3|].
  apply (arm_replaces UserDashboard.boot 5 3 H5 H3).
Defined.

(** Arming a dashboard whose counter has another value starts the hold:
    the effect sets the flag and registers the interval. *)
Lemma armed_starts_hold (rt : UserDashboard.Runtime) (n : Z) :
  0 < n -> UserDashboard.cooldownTimer (UserDashboard.ui rt) <> n ->
  let rt' := UserDashboard.armed (Some n) rt in
  UserDashboard.cooldownTimer (UserDashboard.ui rt') = n
  /\ UserDashboard.isCooldownActive (UserDashboard.ui rt') = true
  /\ UserDashboard.interval rt' = true.
Proof.
  intros Hn Hne rt'. subst rt'. unfold UserDashboard.armed.
  assert (Harm : UserDashboard.arm (Some n) = [UserDashboard.setCooldownTimer n]).
  { unfold UserDashboard.arm, truthy.
    destruct (n =? 0) eqn:E; [apply Z.eqb_eq in E; lia | reflexivity]. }
  rewrite Harm, commit_cooldownTimer. split; [reflexivity|].
  replace true with (0 <? n) by (apply Z.ltb_lt; exact Hn).
  apply (commit_changed (UserDashboard.ui rt)
           (UserDashboard.run [UserDashboard.setCooldownTimer n] rt)).
  simpl. congruence.
Qed.

(** One tick above one second: the counter drops by one and the hold goes
    on, with a fresh interval. *)
Lemma tick_counts_down (rt : UserDashboard.Runtime) :
  1 < UserDashboard.cooldownTimer (UserDashboard.ui rt) ->
  UserDashboard.interval rt = true ->
  let rt' := UserDashboard.tick rt in
  UserDashboard.cooldownTimer (UserDashboard.ui rt')
    = UserDashboard.cooldownTimer (UserDashboard.ui rt) - 1
  /\ UserDashboard.isCooldownActive (UserDashboard.ui rt') = true
  /\ UserDashboard.interval rt' = true.
Proof.
  intros Ht Hi rt'. subst rt'. unfold UserDashboard.tick.
  rewrite Hi. unfold UserDashboard.tick_updater.
  destruct (_ <=? 1) eqn:E; [apply Z.leb_le in E; lia|].
  rewrite commit_cooldownTimer. simpl. split; [reflexivity|].
  replace true with
    (0 <? UserDashboard.cooldownTimer (UserDashboard.ui rt) - 1)
    by (apply Z.ltb_lt; lia).
  apply (commit_changed (UserDashboard.ui rt)
           (UserDashboard.run
              [UserDashboard.setCooldownTimer
                 (UserDashboard.cooldownTimer (UserDashboard.ui rt) - 1)] rt)).
  simpl. lia.
Qed.

(** The tick at one second: the counter is set to zero, the flag is
    cleared and the interval is gone. *)
Lemma tick_expires (rt : UserDashboard.Runtime) :
  UserDashboard.cooldownTimer (UserDashboard.ui rt) = 1 ->
  UserDashboard.interval rt = true ->
  let rt' := UserDashboard.tick rt in
  UserDashboard.cooldownTimer (UserDashboard.ui rt') = 0
  /\ UserDashboard.isCooldownActive (UserDashboard.ui rt') = false
  /\ UserDashboard.interval rt' = false.
Proof.
  intros Ht Hi rt'. subst rt'. unfold UserDashboard.tick.
  rewrite Hi, Ht.
  change (UserDashboard.tick_updater 1)
    with (0, [UserDashboard.setIsCooldownActive false]).
  cbv iota beta. rewrite commit_cooldownTimer. split; [reflexivity|].
  change false with (0 <? 0).
  apply (commit_changed (UserDashboard.ui rt)
           (UserDashboard.run
              [UserDashboard.setIsCooldownActive false;
               UserDashboard.setCooldownTimer 0] rt)).
  simpl. lia.
Qed.

(** With no interval registered nothing ticks. *)
Lemma tick_idle (rt : UserDashboard.Runtime) :
  UserDashboard.interval rt = false -> UserDashboard.tick rt = rt.
Proof. intros Hi. unfold UserDashboard.tick. rewrite Hi. reflexivity. Qed.

Lemma ticks_count_down (k : nat) (rt : UserDashboard.Runtime) :
  Z.of_nat k < UserDashboard.cooldownTimer (UserDashboard.ui rt) ->
  UserDashboard.isCooldownActive (UserDashboard.ui rt) = true ->
  UserDashboard.interval rt = true ->
  let rt' := Nat.iter k UserDashboard.tick rt in
  UserDashboard.cooldownTimer (UserDashboard.ui rt')
    = UserDashboard.cooldownTimer (UserDashboard.ui rt) - Z.of_nat k
  /\ UserDashboard.isCooldownActive (UserDashboard.ui rt') = true
  /\ UserDashboard.interval rt' = true.
Proof.
  induction k as [|k IH]; intros Hk Ha Hi.
  - simpl. split; [lia | done].
  - destruct IH as (IHt & IHa & IHi); [lia | done | done |].
    cbn zeta. rewrite Nat.iter_succ.
    destruct (tick_counts_down (Nat.iter k UserDashboard.tick rt))
      as (Ht' & Ha' & Hi'); [lia | done |].
    split; [lia | done].
Qed.

(** C7. A hold of [n] seconds, [n] a count a double holds exactly, left
    to the interval alone: after [k < n] ticks the counter reads [n - k]
    and the cooldown is still active; the [n]-th tick leaves the counter at
    exactly [0], clears the active flag and removes the interval, after
    which nothing ticks any more. *)
Theorem cooldown_runs_out (rt : UserDashboard.Runtime) (n : Z) :
  0 < n ->
  exact_count n ->
  UserDashboard.cooldownTimer (UserDashboard.ui rt) = n ->
  UserDashboard.isCooldownActive (UserDashboard.ui rt) = true ->
  UserDashboard.interval rt = true ->
  (forall k : nat, Z.of_nat k < n ->
     let rtk := Nat.iter k UserDashboard.tick rt in
     UserDashboard.cooldownTimer (UserDashboard.ui rtk) = n - Z.of_nat k
     /\ UserDashboard.isCooldownActive (UserDashboard.ui rtk) = true)
  /\ let rt' := Nat.iter (Z.to_nat n) UserDashboard.tick rt in
     UserDashboard.cooldownTimer (UserDashboard.ui rt') = 0
     /\ UserDashboard.isCooldownActive (UserDashboard.ui rt') = false
     /\ UserDashboard.interval rt' = false
     /\ UserDashboard.tick rt' = rt'.
Proof.
  intros Hn _ Ht Ha Hi. split.
  - intros k Hk rtk. subst rtk.
    destruct (ticks_count_down k rt) as (Hkt & Hka & _); [lia | done | done |].
    split; [lia | done].
  - replace (Z.to_nat n) with (S (Z.to_nat (n - 1))) by lia.
    cbn zeta. rewrite Nat.iter_succ.
    destruct (ticks_count_down (Z.to_nat (n - 1)) rt)
      as (Hkt & Hka & Hki); [lia | done | done |].
    destruct (tick_expires (Nat.iter (Z.to_nat (n - 1)) UserDashboard.tick rt))
      as (Ht' & Ha' & Hi'); [lia | done |].
    repeat split; try done. by apply tick_idle.
Qed.

Lemma cooldown_runs_out_witness :
  0 < 3
  /\ exact_count 3
  /\ UserDashboard.cooldownTimer
       (UserDashboard.ui (Nat.iter 3 UserDashboard.tick (cooling 3))) = 0.
Proof.
  assert (H : 0 < 3) by reflexivity.
  assert (He : exact_count 3) by (unfold exact_count; lia).
  split; [exact H|]. split; [exact He|].
  apply (cooldown_runs_out (cooling 3) 3 H He eq_refl eq_refl eq_refl).
Defined.

(** ** A submission from start to end *)

(** A decode event in a render without active cooldown: the loading flag
    goes up and one call is added to the pending ones; the cooldown state
    is left alone. *)
Lemma onScan_submits (userId : Z) (qrData : jsstring)
  (rt : UserDashboard.Runtime) :
  UserDashboard.isCooldownActive (UserDashboard.ui rt) = false ->
  UserDashboard.onScan userId qrData rt
  = {| UserDashboard.ui :=
         {| UserDashboard.scanResult := None;
            UserDashboard.loading := true;
            UserDashboard.cooldownTimer :=
              UserDashboard.cooldownTimer (UserDashboard.ui rt);
            UserDashboard.isCooldownActive := false |};
       UserDashboard.interval := UserDashboard.interval rt;
       UserDashboard.inflight :=
         UserDashboard.inflight rt ++ [(qrData, userId)] |}.
Proof.
  intros Ha. unfold UserDashboard.onScan, UserDashboard.onScan_of,
    UserDashboard.handleQRScan.
  rewrite Ha, commit_same by reflexivity. simpl.
  unfold UserDashboard.with_ui. simpl. rewrite Ha. reflexivity.
Qed.

(** A settled call that arms nothing leaves the cooldown state alone. *)
Lemma settle_unarmed (i : nat) (o : Backend.Settled)
  (rt : UserDashboard.Runtime) :
  is_Some (UserDashboard.inflight rt !! i) ->
  match o with
  | Backend.Resolved result => truthy (Backend.cooldown_seconds result) = false
  | Backend.Thrown => True
  end ->
  let rt' := UserDashboard.settle i o rt in
  UserDashboard.cooldownTimer (UserDashboard.ui rt')
    = UserDashboard.cooldownTimer (UserDashboard.ui rt)
  /\ UserDashboard.isCooldownActive (UserDashboard.ui rt')
     = UserDashboard.isCooldownActive (UserDashboard.ui rt)
  /\ UserDashboard.interval rt' = UserDashboard.interval rt.
Proof.
  intros Hi Ho rt'. subst rt'. rewrite (settle_pending _ _ _ Hi).
  unfold UserDashboard.handleQRScan_resume.
  destruct o as [result|].
  - rewrite (arm_falsy _ Ho). rewrite commit_same by reflexivity. done.
  - rewrite commit_same by reflexivity. done.
Qed.

(** C6. A submission whose call throws: the handler shows the
    server-error result with the connection message, clears the loading
    flag, and leaves the pending calls and the cooldown state as they were
    before the submission; the next decode event is submitted again. *)
Theorem network_fault_recovers
  (userId : Z) (qrData qrData' : jsstring) (rt : UserDashboard.Runtime) :
  UserDashboard.isCooldownActive (UserDashboard.ui rt) = false ->
  let rt1 := UserDashboard.onScan userId qrData rt in
  let rt2 :=
    UserDashboard.settle (length (UserDashboard.inflight rt))
      Backend.Thrown rt1 in
  let rt3 := UserDashboard.onScan userId qrData' rt2 in
  (UserDashboard.loading (UserDashboard.ui rt1) = true
   /\ UserDashboard.inflight rt1
      = UserDashboard.inflight rt ++ [(qrData, userId)])
  /\ (exists sr,
        UserDashboard.scanResult (UserDashboard.ui rt2) = Some sr
        /\ UserDashboard.kind sr = UserDashboard.RejectedServerError
        /\ UserDashboard.message sr = blad_polaczenia)
  /\ UserDashboard.loading (UserDashboard.ui rt2) = false
  /\ UserDashboard.inflight rt2 = UserDashboard.inflight rt
  /\ UserDashboard.isCooldownActive (UserDashboard.ui rt2) = false
  /\ UserDashboard.inflight rt3
     = UserDashboard.inflight rt ++ [(qrData', userId)].
Proof.
  intros Ha rt1 rt2 rt3.
  assert (H1 : rt1 = _) by exact (onScan_submits userId qrData rt Ha).
  assert (Hp : is_Some (UserDashboard.inflight rt1
                          !! length (UserDashboard.inflight rt))).
  { rewrite H1. simpl. rewrite list_lookup_middle by reflexivity. eauto. }
  destruct (settle_fields _ Backend.Thrown rt1 Hp) as (Hl & Hf & Hr).
  destruct (settle_unarmed _ Backend.Thrown rt1 Hp I) as (_ & Hc & _).
  assert (Hf2 : UserDashboard.inflight rt2 = UserDashboard.inflight rt).
  { subst rt2. rewrite Hf, H1. simpl. rewrite delete_middle.
    apply app_nil_r. }
  assert (Ha2 : UserDashboard.isCooldownActive (UserDashboard.ui rt2) = false).
  { subst rt2. rewrite Hc, H1. reflexivity. }
  split; [rewrite H1; done|].
  split; [exists UserDashboard.connection_error; done|].
  split; [exact Hl|]. split; [exact Hf2|]. split; [exact Ha2|].
  subst rt3. rewrite (onScan_submits userId qrData' rt2 Ha2). simpl.
  rewrite Hf2. reflexivity.
Qed.

Lemma network_fault_recovers_witness :
  UserDashboard.isCooldownActive (UserDashboard.ui UserDashboard.boot) = false
  /\ UserDashboard.loading
       (UserDashboard.ui
          (UserDashboard.settle 0 Backend.Thrown
             (UserDashboard.onScan sample_user sample_qr UserDashboard.boot)))
     = false.
Proof.
  split; [reflexivity|].
  apply (network_fault_recovers sample_user sample_qr sample_qr
           UserDashboard.boot eq_refl).
Defined.

(** C9. A submission answered, with success or not, by a response whose
    [cooldown_seconds] is absent or [0]: nothing is armed, the active flag
    is still false, the counter and the interval are untouched, the loading
    flag is cleared, and the next decode event is submitted at once. *)
Theorem unarmed_response_allows_next
  (userId : Z) (qrData qrData' : jsstring) (result : Backend.Result)
  (rt : UserDashboard.Runtime) :
  UserDashboard.isCooldownActive (UserDashboard.ui rt) = false ->
  Backend.cooldown_seconds result = None
  \/ Backend.cooldown_seconds result = Some 0 ->
  let rt1 := UserDashboard.onScan userId qrData rt in
  let rt2 :=
    UserDashboard.settle (length (UserDashboard.inflight rt))
      (Backend.Resolved result) rt1 in
  let rt3 := UserDashboard.onScan userId qrData' rt2 in
  UserDashboard.isCooldownActive (UserDashboard.ui rt2) = false
  /\ UserDashboard.cooldownTimer (UserDashboard.ui rt2)
     = UserDashboard.cooldownTimer (UserDashboard.ui rt)
  /\ UserDashboard.interval rt2 = UserDashboard.interval rt
  /\ UserDashboard.loading (UserDashboard.ui rt2) = false
  /\ UserDashboard.inflight rt2 = UserDashboard.inflight rt
  /\ UserDashboard.inflight rt3
     = UserDashboard.inflight rt ++ [(qrData', userId)].
Proof.
  intros Ha Hc rt1 rt2 rt3.
  assert (Hfalsy : truthy (Backend.cooldown_seconds result) = false).
  { destruct Hc as [-> | ->]; reflexivity. }
  assert (H1 : rt1 = _) by exact (onScan_submits userId qrData rt Ha).
  assert (Hp : is_Some (UserDashboard.inflight rt1
                          !! length (UserDashboard.inflight rt))).
  { rewrite H1. simpl. rewrite list_lookup_middle by reflexivity. eauto. }
  destruct (settle_fields _ (Backend.Resolved result) rt1 Hp)
    as (Hl & Hf & _).
  destruct (settle_unarmed _ (Backend.Resolved result) rt1 Hp Hfalsy)
    as (Ht & Hact & Hiv).
  assert (Hf2 : UserDashboard.inflight rt2 = UserDashboard.inflight rt).
  { subst rt2. rewrite Hf, H1. simpl. rewrite delete_middle.
    apply app_nil_r. }
  assert (Ha2 : UserDashboard.isCooldownActive (UserDashboard.ui rt2) = false).
  { subst rt2. rewrite Hact, H1. reflexivity. }
  split; [exact Ha2|].
  split; [subst rt2; rewrite Ht, H1; reflexivity|].
  split; [subst rt2; rewrite Hiv, H1; reflexivity|].
  split; [exact Hl|]. split; [exact Hf2|].
  subst rt3. rewrite (onScan_submits userId qrData' rt2 Ha2). simpl.
  rewrite Hf2. reflexivity.
Qed.

Lemma unarmed_response_allows_next_witness :
  UserDashboard.isCooldownActive (UserDashboard.ui UserDashboard.boot) = false
  /\ (Backend.cooldown_seconds sample_foreign = None
      \/ Backend.cooldown_seconds sample_foreign = Some 0)
  /\ UserDashboard.isCooldownActive
       (UserDashboard.ui
          (UserDashboard.settle 0 (Backend.Resolved sample_foreign)
             (UserDashboard.onScan sample_user sample_qr UserDashboard.boot)))
     = false.
Proof.
  assert (H : Backend.cooldown_seconds sample_foreign = None
              \/ Backend.cooldown_seconds sample_foreign = Some 0)
    by (left; reflexivity).
  split; [reflexivity|]. split; [exact H|].
  apply (unarmed_response_allows_next sample_user sample_qr sample_qr
           sample_foreign UserDashboard.boot eq_refl H).
Defined.

(** ** Stopping the camera *)

Lemma release_closes (id : nat) (cam : Camera) : id ∉ live (release id cam).
Proof.
  unfold release. simpl. rewrite elem_of_difference, elem_of_singleton.
  intros [_ H]. by apply H.
Qed.

Lemma acquire_opens (cam : Camera) : (acquire cam).1 ∈ live (acquire cam).2.
Proof.
  unfold acquire. simpl. apply elem_of_union_l. by apply elem_of_singleton.
Qed.

Lemma acquire_keeps_closed (id : nat) (cam : Camera) :
  id <> next cam -> id ∉ live cam -> id ∉ live (acquire cam).2.
Proof.
  intros Hne Hid. unfold acquire. simpl.
  rewrite elem_of_union, elem_of_singleton. intros [H | H]; done.
Qed.

(** C8. [stopScanning], in either scanner: a second call right after the
    first changes nothing, neither the component state nor the set of open
    streams.  After one call the scanner is not scanning, its reference is
    cleared and the stream it held is not open; called on a scanner that
    holds no stream it leaves the camera as it is. *)
Theorem stop_idempotent :
  (forall (s : DemoScanner.State) (cam : Camera),
     let once := DemoScanner.stopScanning s cam in
     DemoScanner.stopScanning once.1 once.2 = once
     /\ DemoScanner.isScanning once.1 = false
     /\ DemoScanner.streamRef once.1 = None
     /\ (forall stream, DemoScanner.streamRef s = Some stream ->
         stream ∉ live once.2)
     /\ (DemoScanner.streamRef s = None -> once.2 = cam))
  /\ (forall (s : LiveScanner.State) (cam : Camera),
        let once := LiveScanner.stopScanning s cam in
        LiveScanner.stopScanning once.1 once.2 = once
        /\ LiveScanner.isScanning once.1 = false
        /\ LiveScanner.qrScannerRef once.1 = None
        /\ (forall q, LiveScanner.qrScannerRef s = Some q ->
            LiveScanner.oid q ∉ live once.2)
        /\ (LiveScanner.qrScannerRef s = None -> once.2 = cam)).
Proof.
  split; intros s cam once; subst once.
  - unfold DemoScanner.stopScanning.
    destruct (DemoScanner.streamRef s) as [stream|] eqn:Hs; simpl.
    + repeat split; try done.
      intros stream' Heq. injection Heq as <-. apply release_closes.
    + repeat split; done.
  - unfold LiveScanner.stopScanning.
    destruct (LiveScanner.qrScannerRef s) as [q|] eqn:Hs; simpl.
    + repeat split; try done.
      intros q' Heq. injection Heq as <-. apply release_closes.
    + repeat split; done.
Qed.

(** ** Switching the camera *)

(** C5, click-driven scanner.  The camera button pressed on a running
    scanner (started from the initial state, back camera): the scanner ends
    up not scanning, with no stream open, facing the other way;
    [toggleCamera] has stopped it and the facing-mode effect, run in a
    render where [isScanning] is already false, starts nothing. *)
Theorem demo_switch_camera_stops :
  let w := DemoApp.steps sample_user DemoApp.initial
             [DemoApp.PressMain true] in
  let w' := DemoApp.step sample_user w (DemoApp.PressCamera true) in
  (DemoScanner.isScanning (DemoApp.scanner w) = true
   /\ DemoScanner.facingMode (DemoApp.scanner w) = environment
   /\ live (DemoApp.cam w) = {[ 0%nat ]})
  /\ DemoScanner.isScanning (DemoApp.scanner w') = false
  /\ DemoScanner.facingMode (DemoApp.scanner w') = user
  /\ DemoScanner.streamRef (DemoApp.scanner w') = None
  /\ live (DemoApp.cam w') = ∅.
Proof. cbn. repeat split. Qed.

(** The same for every state of the click-driven scanner: after the switch
    it never scans, whatever the camera would have granted. *)
Lemma demo_switch_camera_never_restarts
  (granted : bool) (s : DemoScanner.State) (cam : Camera) :
  let after := DemoScanner.switchCamera granted s cam in
  DemoScanner.isScanning after.1 = false
  /\ DemoScanner.facingMode after.1 = opposite (DemoScanner.facingMode s)
  /\ after.2 = (DemoScanner.stopScanning s cam).2.
Proof.
  unfold DemoScanner.switchCamera, DemoScanner.commit,
    DemoScanner.facingModeEffect, DemoScanner.toggleCamera,
    DemoScanner.stopScanning.
  destruct (DemoScanner.streamRef s), (DemoScanner.facingMode s); done.
Qed.

(** The library scanner.  The camera button pressed while scanning, the new
    camera starting: the scanner scans again with a new object that prefers
    the opposite camera and whose stream is open, and the stream of the
    previous object is closed.  From a scanner that is not scanning only the
    facing mode changes side. *)
Lemma live_switch_camera_restarts
  (p : LiveScanner.Props) (switched : bool) (s : LiveScanner.State)
  (cam : Camera) :
  (LiveScanner.isScanning s = true ->
   let after := LiveScanner.switchCamera p switched true s cam in
   LiveScanner.isScanning after.1 = true
   /\ LiveScanner.facingMode after.1 = opposite (LiveScanner.facingMode s)
   /\ exists q,
        LiveScanner.qrScannerRef after.1 = Some q
        /\ LiveScanner.preferredCamera q = opposite (LiveScanner.facingMode s)
        /\ LiveScanner.oid q ∈ live after.2
        /\ forall old, LiveScanner.qrScannerRef s = Some old ->
                       LiveScanner.oid old <> LiveScanner.oid q ->
                       LiveScanner.oid old ∉ live after.2)
  /\ (LiveScanner.isScanning s = false ->
      forall started,
      let after := LiveScanner.switchCamera p switched started s cam in
      LiveScanner.isScanning after.1 = false
      /\ LiveScanner.facingMode after.1 = opposite (LiveScanner.facingMode s)
      /\ after.2 = cam).
Proof.
  split.
  - intros Hs after. subst after.
    unfold LiveScanner.switchCamera, LiveScanner.commit,
      LiveScanner.facingModeEffect, LiveScanner.toggleCamera,
      LiveScanner.toggleCamera_resume, LiveScanner.startScanning.
    destruct s as [scanning err facing ref]. simpl in Hs. subst scanning.
    destruct facing, ref as [old|], switched; simpl;
      (split; [reflexivity|]; split; [reflexivity|];
       eexists; split; [reflexivity|]; split; [reflexivity|]; simpl; split;
       [ apply elem_of_union_l; by apply elem_of_singleton
       | intros old' Heq Hne;
         first
           [ discriminate Heq
           | injection Heq as <-;
             rewrite elem_of_union, elem_of_singleton, elem_of_difference,
               elem_of_singleton;
             intros [H | [_ H]]; [by apply Hne | by apply H] ] ]).
  - intros Hs started after. subst after.
    unfold LiveScanner.switchCamera, LiveScanner.commit,
      LiveScanner.facingModeEffect, LiveScanner.toggleCamera,
      LiveScanner.toggleCamera_resume.
    destruct s as [scanning err facing ref]. simpl in Hs. subst scanning.
    destruct facing, ref as [old|], switched; done.
Qed.

(** ** One submission at a time *)

Lemma tick_inflight (rt : UserDashboard.Runtime) :
  UserDashboard.inflight (UserDashboard.tick rt) = UserDashboard.inflight rt.
Proof.
  unfold UserDashboard.tick, UserDashboard.tick_updater.
  destruct (UserDashboard.interval rt); [|reflexivity].
  destruct (_ <=? 1); rewrite commit_inflight; reflexivity.
Qed.

Lemma tick_loading (rt : UserDashboard.Runtime) :
  UserDashboard.loading (UserDashboard.ui (UserDashboard.tick rt))
  = UserDashboard.loading (UserDashboard.ui rt).
Proof.
  unfold UserDashboard.tick, UserDashboard.tick_updater.
  destruct (UserDashboard.interval rt); [|reflexivity].
  destruct (_ <=? 1); rewrite commit_loading; reflexivity.
Qed.

(** [handleVideoClick] lets a click through only when nothing is loading. *)
Lemma handleVideoClick_guard (s : DemoScanner.State) (loading : bool)
  (rnd : nat) (qrData : jsstring) :
  DemoScanner.handleVideoClick s loading rnd = Some qrData ->
  DemoScanner.isScanning s = true /\ loading = false.
Proof.
  unfold DemoScanner.handleVideoClick.
  destruct (DemoScanner.isScanning s), loading; simpl; done.
Qed.

(** With the click-driven scanner every event keeps [single_flight]. *)
Lemma demo_step_single_flight (userId : Z) (w : DemoApp.World)
  (e : DemoApp.Event) :
  DemoApp.single_flight w -> DemoApp.single_flight (DemoApp.step userId w e).
Proof.
  intros [Hlen Hload]. unfold DemoApp.single_flight.
  destruct e as [granted | granted | rnd | i o | ]; simpl.
  - repeat case_match; done.
  - repeat case_match; done.
  - destruct (DemoScanner.handleVideoClick _ _ _) as [qrData|] eqn:Hclick;
      [|done].
    apply handleVideoClick_guard in Hclick as [_ Hidle]. simpl.
    assert (Hnone : UserDashboard.inflight (DemoApp.rt w) = []).
    { destruct (UserDashboard.inflight (DemoApp.rt w)) eqn:E; [done|].
      rewrite Hload in Hidle; done. }
    destruct (UserDashboard.isCooldownActive
                (UserDashboard.ui (DemoApp.rt w))) eqn:Hactive.
    + unfold UserDashboard.onScan.
      rewrite (onScan_of_holding userId _ qrData (DemoApp.rt w) Hactive).
      simpl. rewrite Hnone. split; [simpl; lia | done].
    + rewrite (onScan_submits userId qrData (DemoApp.rt w) Hactive).
      simpl. rewrite Hnone. split; [simpl; lia | done].
  - destruct (UserDashboard.inflight (DemoApp.rt w) !! i) as [call|] eqn:Hi.
    + destruct (settle_fields i o (DemoApp.rt w)) as (_ & Hdel & _);
        [eauto|].
      assert (Hnone : UserDashboard.inflight
                        (UserDashboard.settle i o (DemoApp.rt w)) = []).
      { rewrite Hdel. apply lookup_lt_Some in Hi.
        destruct (UserDashboard.inflight (DemoApp.rt w)) as [|c [|c' l]];
          simpl in *; [lia | | lia].
        destruct i; [reflexivity | lia]. }
      rewrite Hnone. split; [simpl; lia | done].
    + unfold UserDashboard.settle. rewrite Hi. done.
  - rewrite tick_inflight, tick_loading. done.
Qed.

(** X19. The click-driven scanner: from the initial state, after any
    sequence of button presses, clicks on the video, settling calls and
    ticks, at most one [processScan] call is pending, and the loading flag
    is up whenever one is. *)
Lemma demo_single_flight (userId : Z) (es : list DemoApp.Event) :
  DemoApp.single_flight (DemoApp.steps userId DemoApp.initial es).
Proof.
  assert (H : DemoApp.single_flight DemoApp.initial)
    by (split; [simpl; lia | done]).
  revert H. generalize DemoApp.initial.
  induction es as [|e es IH]; intros w Hw; [exact Hw|].
  apply IH, demo_step_single_flight, Hw.
Qed.

(** C2, library scanner.  The scanner is started and reports the same badge
    twice before the backend answers.  After the first report one call is
    pending, the loading flag is up and the scanner's [disabled] prop is
    true; the second report still reaches [processScan], and two calls are
    pending: the callback built by [startScanning] tests the [disabled] of
    the render in which the scanner was started and calls the
    [handleQRScan] of that render. *)
Theorem live_second_submission_in_flight :
  let w1 := LiveApp.steps sample_user LiveApp.initial
              [LiveApp.PressMain true; LiveApp.Decode sample_qr] in
  let w2 := LiveApp.step sample_user w1 (LiveApp.Decode sample_qr) in
  (UserDashboard.loading (UserDashboard.ui (LiveApp.rt w1)) = true
   /\ LiveScanner.disabled
        (LiveScanner.props_of (UserDashboard.ui (LiveApp.rt w1))) = true
   /\ UserDashboard.inflight (LiveApp.rt w1) = [(sample_qr, sample_user)])
  /\ UserDashboard.inflight (LiveApp.rt w2)
     = [(sample_qr, sample_user); (sample_qr, sample_user)].
Proof. cbn. repeat split. Qed.

(** C1, library scanner.  The scanner is started, a badge is reported and
    accepted with five seconds of cooldown, and the same badge is reported
    again.  Before the second report the cooldown is active with five
    seconds left, nothing is pending and the scanner's [disabled] prop is
    true; the report is nevertheless sent to [processScan], and what is
    shown is the cleared result of a new submission with the loading flag
    up, not a cooldown rejection: the callback built by [startScanning]
    still calls the [handleQRScan] of the render the scanner was started
    in, where no cooldown was active. *)
Theorem live_submission_during_cooldown :
  let w3 := LiveApp.steps sample_user LiveApp.initial
              [LiveApp.PressMain true; LiveApp.Decode sample_qr;
               LiveApp.Settle 0 (Backend.Resolved sample_accept)] in
  let w4 := LiveApp.step sample_user w3 (LiveApp.Decode sample_qr) in
  (UserDashboard.isCooldownActive (UserDashboard.ui (LiveApp.rt w3)) = true
   /\ UserDashboard.cooldownTimer (UserDashboard.ui (LiveApp.rt w3)) = 5
   /\ LiveScanner.disabled
        (LiveScanner.props_of (UserDashboard.ui (LiveApp.rt w3))) = true
   /\ UserDashboard.inflight (LiveApp.rt w3) = [])
  /\ UserDashboard.inflight (LiveApp.rt w4) = [(sample_qr, sample_user)]
  /\ UserDashboard.scanResult (UserDashboard.ui (LiveApp.rt w4)) = None
  /\ UserDashboard.loading (UserDashboard.ui (LiveApp.rt w4)) = true
  /\ UserDashboard.isCooldownActive (UserDashboard.ui (LiveApp.rt w4)) = true.
Proof. cbn. repeat split. Qed.

(** With the click-driven scanner the handler is the one of the current
    render: a click during a cooldown adds no pending call. *)
Lemma demo_no_submission_during_cooldown (userId : Z) (w : DemoApp.World)
  (rnd : nat) :
  UserDashboard.isCooldownActive (UserDashboard.ui (DemoApp.rt w)) = true ->
  UserDashboard.inflight
    (DemoApp.rt (DemoApp.step userId w (DemoApp.ClickVideo rnd)))
  = UserDashboard.inflight (DemoApp.rt w).
Proof.
  intros Hactive. simpl.
  destruct (DemoScanner.handleVideoClick _ _ _) as [qrData|]; [|done].
  simpl. unfold UserDashboard.onScan.
  rewrite (onScan_of_holding userId _ qrData (DemoApp.rt w) Hactive).
  reflexivity.
Qed.

(** With the click-driven scanner running, nothing loading and no cooldown,
    a click on the video is submitted: this is the state a settled call
    without cooldown leaves behind. *)
Lemma demo_click_submits (userId : Z) (w : DemoApp.World) (rnd : nat) :
  DemoScanner.isScanning (DemoApp.scanner w) = true ->
  UserDashboard.loading (UserDashboard.ui (DemoApp.rt w)) = false ->
  UserDashboard.isCooldownActive (UserDashboard.ui (DemoApp.rt w)) = false ->
  exists qrData,
    DemoScanner.mockQRCodes !! (rnd `mod` 3)%nat = Some qrData
    /\ UserDashboard.inflight
         (DemoApp.rt (DemoApp.step userId w (DemoApp.ClickVideo rnd)))
       = UserDashboard.inflight (DemoApp.rt w) ++ [(qrData, userId)].
Proof.
  intros Hscan Hload Hactive.
  unfold DemoApp.step, DemoScanner.handleVideoClick.
  rewrite Hscan, Hload. cbn [andb negb].
  change (length DemoScanner.mockQRCodes) with 3%nat.
  assert (Hlt : (rnd `mod` 3 < 3)%nat) by (apply Nat.mod_upper_bound; lia).
  destruct (DemoScanner.mockQRCodes !! (rnd `mod` 3)%nat) as [qrData|] eqn:Hq.
  - exists qrData. split; [reflexivity|].
    unfold DemoApp.with_rt. cbn [DemoApp.rt].
    rewrite (onScan_submits userId qrData (DemoApp.rt w) Hactive).
    reflexivity.
  - apply lookup_ge_None in Hq.
    change (length DemoScanner.mockQRCodes) with 3%nat in Hq. lia.
Qed.

(** Any run of clicks during a cooldown, with the click-driven scanner:
    the cooldown stays active and no call is added. *)
Lemma demo_clicks_during_cooldown (userId : Z) (rnds : list nat)
  (w : DemoApp.World) :
  UserDashboard.isCooldownActive (UserDashboard.ui (DemoApp.rt w)) = true ->
  let w' := DemoApp.steps userId w (DemoApp.ClickVideo <$> rnds) in
  UserDashboard.inflight (DemoApp.rt w') = UserDashboard.inflight (DemoApp.rt w)
  /\ UserDashboard.isCooldownActive (UserDashboard.ui (DemoApp.rt w')) = true.
Proof.
  revert w. induction rnds as [|rnd rnds IH]; intros w Hactive; [done|].
  cbn zeta. rewrite fmap_cons.
  change (DemoApp.steps userId w (DemoApp.ClickVideo rnd :: ?es))
    with (DemoApp.steps userId
            (DemoApp.step userId w (DemoApp.ClickVideo rnd)) es).
  set (w1 := DemoApp.step userId w (DemoApp.ClickVideo rnd)).
  assert (H1 : UserDashboard.inflight (DemoApp.rt w1)
               = UserDashboard.inflight (DemoApp.rt w)
               /\ UserDashboard.isCooldownActive
                    (UserDashboard.ui (DemoApp.rt w1)) = true).
  { subst w1. simpl.
    destruct (DemoScanner.handleVideoClick _ _ _) as [qrData|]; [|done].
    simpl. unfold UserDashboard.onScan.
    rewrite (onScan_of_holding userId _ qrData (DemoApp.rt w) Hactive).
    done. }
  destruct H1 as [Hf Ha]. destruct (IH w1 Ha) as [Hf' Ha'].
  split; [congruence | exact Ha'].
Qed.

(** ** The callback kept by the library scanner *)

(** Both ways to a new [QrScanner] object go through a button that is
    inert while [disabled], so every event keeps [callback_open]. *)
Lemma live_step_callback_open (userId : Z) (w : LiveApp.World)
  (e : LiveApp.Event) :
  LiveApp.callback_open w -> LiveApp.callback_open (LiveApp.step userId w e).
Proof.
  intros Hw. unfold LiveApp.callback_open.
  destruct e as [started | switched started | data | i o | ]; simpl.
  - destruct (UserDashboard.loading _) eqn:Hl; [exact Hw|].
    destruct (UserDashboard.isCooldownActive _) eqn:Ha; [exact Hw|]. simpl.
    destruct (LiveScanner.isScanning _); simpl; [done|].
    unfold LiveScanner.startScanning.
    destruct started; simpl; intros q Hq; injection Hq as <-; simpl;
      rewrite Hl, Ha; done.
  - destruct (LiveScanner.isScanning (LiveApp.scanner w)) eqn:Hs;
      [|exact Hw].
    destruct (UserDashboard.loading _) eqn:Hl; [exact Hw|].
    destruct (UserDashboard.isCooldownActive _) eqn:Ha; [exact Hw|]. simpl.
    unfold LiveScanner.switchCamera, LiveScanner.commit,
      LiveScanner.facingModeEffect, LiveScanner.toggleCamera,
      LiveScanner.toggleCamera_resume, LiveScanner.startScanning.
    rewrite Hs.
    destruct (LiveScanner.facingMode (LiveApp.scanner w)),
      (LiveScanner.qrScannerRef (LiveApp.scanner w)) as [old|],
      switched, started;
      simpl; intros q Hq; injection Hq as <-; simpl; rewrite Hl, Ha; done.
  - repeat case_match; exact Hw.
  - exact Hw.
  - exact Hw.
Qed.

Lemma live_callback_open (userId : Z) (es : list LiveApp.Event) :
  LiveApp.callback_open (LiveApp.steps userId LiveApp.initial es).
Proof.
  assert (H : LiveApp.callback_open LiveApp.initial) by (intros q Hq; done).
  revert H. generalize LiveApp.initial.
  induction es as [|e es IH]; intros w Hw; [exact Hw|].
  apply IH, live_step_callback_open, Hw.
Qed.

(** X20. With the library scanner, in any state reached from the initial
    one: while the object in [qrScannerRef] has its camera running, every
    non-empty decode report adds a [processScan] call, whatever the loading
    flag and the cooldown are by then. *)
Lemma live_decode_submits (userId : Z) (es : list LiveApp.Event)
  (q : LiveScanner.QrScanner) (data : jsstring) :
  let w := LiveApp.steps userId LiveApp.initial es in
  LiveScanner.qrScannerRef (LiveApp.scanner w) = Some q ->
  LiveScanner.oid q ∈ live (LiveApp.cam w) ->
  data <> [] ->
  UserDashboard.inflight
    (LiveApp.rt (LiveApp.step userId w (LiveApp.Decode data)))
  = UserDashboard.inflight (LiveApp.rt w) ++ [(data, userId)].
Proof.
  intros w Hq Hlive Hdata.
  destruct (live_callback_open userId es q Hq) as [Hd Ha].
  unfold LiveApp.step. rewrite Hq, bool_decide_eq_true_2 by exact Hlive.
  unfold LiveScanner.onDecode. destruct data as [|c data]; [done|].
  rewrite Hd. cbn [negb]. unfold LiveApp.with_rt. cbn [LiveApp.rt].
  unfold UserDashboard.onScan_of, UserDashboard.handleQRScan.
  rewrite Ha, commit_inflight. reflexivity.
Qed.

(** * Further properties of the components *)

(** ** The cooldown state over whole runs *)

Lemma commit_coherent (prev : UserDashboard.State)
  (rt : UserDashboard.Runtime) :
  (UserDashboard.cooldownTimer (UserDashboard.ui rt)
   = UserDashboard.cooldownTimer prev -> DashboardRun.coherent rt) ->
  DashboardRun.coherent (UserDashboard.commit prev rt).
Proof.
  intros H.
  destruct (decide (UserDashboard.cooldownTimer (UserDashboard.ui rt)
                    = UserDashboard.cooldownTimer prev)) as [Heq | Hne].
  - rewrite (commit_same _ _ Heq). exact (H Heq).
  - unfold DashboardRun.coherent. rewrite commit_cooldownTimer.
    exact (commit_changed prev rt Hne).
Qed.

(** The commands of the resumed handler touch neither the active flag nor
    the interval; the counter changes only through [arm]. *)
Lemma run_resume_cooldown (o : Backend.Settled) (rt : UserDashboard.Runtime) :
  let rt' := UserDashboard.run (UserDashboard.handleQRScan_resume o) rt in
  UserDashboard.isCooldownActive (UserDashboard.ui rt')
    = UserDashboard.isCooldownActive (UserDashboard.ui rt)
  /\ UserDashboard.interval rt' = UserDashboard.interval rt
  /\ UserDashboard.cooldownTimer (UserDashboard.ui rt')
     = match o with
       | Backend.Resolved result =>
           match Backend.cooldown_seconds result with
           | Some n => if n =? 0
                       then UserDashboard.cooldownTimer (UserDashboard.ui rt)
                       else n
           | None => UserDashboard.cooldownTimer (UserDashboard.ui rt)
           end
       | Backend.Thrown => UserDashboard.cooldownTimer (UserDashboard.ui rt)
       end.
Proof.
  unfold UserDashboard.handleQRScan_resume, UserDashboard.arm, truthy.
  destruct o as [result|]; [|done].
  destruct (Backend.cooldown_seconds result) as [n|]; [|done].
  destruct (n =? 0); done.
Qed.

Lemma step_coherent (userId : Z) (rt : UserDashboard.Runtime)
  (e : DashboardRun.Event) :
  DashboardRun.coherent rt -> DashboardRun.coherent (DashboardRun.step userId rt e).
Proof.
  intros Hrt. pose proof Hrt as [Ha Hi].
  destruct e as [r qrData | i o | ]; simpl.
  - unfold UserDashboard.onScan_of. apply commit_coherent. intros _.
    unfold UserDashboard.handleQRScan, DashboardRun.coherent.
    destruct (UserDashboard.isCooldownActive r); simpl; done.
  - unfold UserDashboard.settle.
    destruct (UserDashboard.inflight rt !! i); [|done].
    apply commit_coherent. intros Hsame.
    match goal with |- DashboardRun.coherent (UserDashboard.run _ ?x) =>
      destruct (run_resume_cooldown o x) as (Ha' & Hi' & _) end.
    unfold DashboardRun.coherent. rewrite Ha', Hi', Hsame. done.
  - unfold UserDashboard.tick.
    destruct (UserDashboard.interval rt) eqn:Hiv; [|done].
    assert (Hpos : 0 < UserDashboard.cooldownTimer (UserDashboard.ui rt))
      by (apply Z.ltb_lt; congruence).
    unfold UserDashboard.tick_updater.
    destruct (_ <=? 1); apply commit_coherent; simpl; intros Hsame; lia.
Qed.

(** X1. In every state the dashboard reaches from its first render, by
    decode events handed to the handler of any render, settling calls and
    ticks, [isCooldownActive] is true exactly when [cooldownTimer > 0], and
    the interval is registered exactly then. *)
Theorem cooldown_coherent (userId : Z) (es : list DashboardRun.Event) :
  DashboardRun.coherent (DashboardRun.steps userId UserDashboard.boot es).
Proof.
  assert (H : DashboardRun.coherent UserDashboard.boot) by done.
  revert H. generalize UserDashboard.boot.
  induction es as [|e es IH]; intros rt Hrt; [exact Hrt|].
  apply IH, step_coherent, Hrt.
Qed.

(** A pending call answered with a truthy [cooldown_seconds] other than
    the present counter: the counter takes the value, and flag and
    interval follow its sign. *)
Lemma settle_armed (i : nat) (result : Backend.Result) (n : Z)
  (rt : UserDashboard.Runtime) :
  is_Some (UserDashboard.inflight rt !! i) ->
  Backend.cooldown_seconds result = Some n ->
  n <> 0 ->
  UserDashboard.cooldownTimer (UserDashboard.ui rt) <> n ->
  let rt' := UserDashboard.settle i (Backend.Resolved result) rt in
  UserDashboard.cooldownTimer (UserDashboard.ui rt') = n
  /\ UserDashboard.isCooldownActive (UserDashboard.ui rt') = (0 <? n)
  /\ UserDashboard.interval rt' = (0 <? n).
Proof.
  intros Hi Hc Hn Hne rt'. subst rt'. rewrite (settle_pending _ _ _ Hi).
  match goal with |- context [UserDashboard.run _ ?x] =>
    destruct (run_resume_cooldown (Backend.Resolved result) x)
      as (_ & _ & Ht) end.
  rewrite Hc in Ht. apply Z.eqb_neq in Hn. rewrite Hn in Ht. simpl in Ht.
  rewrite commit_cooldownTimer. split; [exact Ht|].
  rewrite <- Ht. apply commit_changed. rewrite Ht. simpl. congruence.
Qed.

(** The dashboard right after a submission from an idle state, and after
    its answer with cooldown [n]. *)
Lemma submit_then_armed (userId : Z) (qrData : jsstring)
  (result : Backend.Result) (n : Z) (rt : UserDashboard.Runtime) :
  UserDashboard.isCooldownActive (UserDashboard.ui rt) = false ->
  Backend.cooldown_seconds result = Some n ->
  n <> 0 ->
  UserDashboard.cooldownTimer (UserDashboard.ui rt) <> n ->
  let rt2 :=
    UserDashboard.settle (length (UserDashboard.inflight rt))
      (Backend.Resolved result) (UserDashboard.onScan userId qrData rt) in
  UserDashboard.cooldownTimer (UserDashboard.ui rt2) = n
  /\ UserDashboard.isCooldownActive (UserDashboard.ui rt2) = (0 <? n)
  /\ UserDashboard.interval rt2 = (0 <? n)
  /\ UserDashboard.loading (UserDashboard.ui rt2) = false
  /\ UserDashboard.inflight rt2 = UserDashboard.inflight rt.
Proof.
  intros Ha Hc Hn Hne rt2.
  pose proof (onScan_submits userId qrData rt Ha) as H1.
  assert (Hp : is_Some (UserDashboard.inflight
                          (UserDashboard.onScan userId qrData rt)
                          !! length (UserDashboard.inflight rt))).
  { rewrite H1. simpl. rewrite list_lookup_middle by reflexivity. eauto. }
  destruct (settle_fields _ (Backend.Resolved result) _ Hp) as (Hl & Hf & _).
  destruct (settle_armed _ result n _ Hp Hc Hn) as (Ht & Hact & Hiv).
  { rewrite H1. exact Hne. }
  repeat split; try done.
  subst rt2. rewrite Hf, H1. simpl. rewrite delete_middle. apply app_nil_r.
Qed.

(** X2. A submission from a state without cooldown, answered (accepted or
    refused) with [cooldown_seconds = n > 0], [n] a count a double holds
    exactly: for every [k < n], after [k] ticks a decode event handed to
    the handler of the current render is refused on the spot, with no call
    added and a message that prints the [n - k] seconds left. *)
Theorem hold_rejects_with_countdown
  (userId : Z) (qrData qrData' : jsstring) (result : Backend.Result)
  (n : Z) (k : nat) (rt : UserDashboard.Runtime) :
  UserDashboard.isCooldownActive (UserDashboard.ui rt) = false ->
  UserDashboard.cooldownTimer (UserDashboard.ui rt) <= 0 ->
  Backend.cooldown_seconds result = Some n ->
  exact_count n ->
  Z.of_nat k < n ->
  let rt2 :=
    UserDashboard.settle (length (UserDashboard.inflight rt))
      (Backend.Resolved result) (UserDashboard.onScan userId qrData rt) in
  let rt3 :=
    UserDashboard.onScan userId qrData' (Nat.iter k UserDashboard.tick rt2) in
  UserDashboard.inflight rt3 = UserDashboard.inflight rt
  /\ exists sr,
       UserDashboard.scanResult (UserDashboard.ui rt3) = Some sr
       /\ UserDashboard.isCooldown sr = Some true
       /\ UserDashboard.message sr
          = UserDashboard.wait_message (n - Z.of_nat k).
Proof.
  intros Ha Ht Hc _ Hk rt2 rt3.
  destruct (submit_then_armed userId qrData result n rt Ha Hc)
    as (Ht2 & Ha2 & Hi2 & _ & Hf2); [lia | lia |].
  fold rt2 in Ht2, Ha2, Hi2, Hf2.
  assert (Hpos : (0 <? n) = true) by (apply Z.ltb_lt; lia).
  rewrite Hpos in Ha2, Hi2.
  destruct (ticks_count_down k rt2) as (Htk & Hak & _);
    [lia | done | done |].
  subst rt3. unfold UserDashboard.onScan.
  rewrite (onScan_of_holding userId _ qrData' _ Hak). simpl.
  split.
  - clear Htk Hak. induction k as [|k IH]; [exact Hf2|].
    rewrite Nat.iter_succ, tick_inflight. apply IH. lia.
  - eexists. split; [reflexivity|]. split; [reflexivity|]. simpl.
    rewrite Htk, Ht2. reflexivity.
Qed.

Lemma hold_rejects_with_countdown_witness :
  UserDashboard.isCooldownActive (UserDashboard.ui UserDashboard.boot) = false
  /\ UserDashboard.cooldownTimer (UserDashboard.ui UserDashboard.boot) <= 0
  /\ Backend.cooldown_seconds sample_accept = Some 5
  /\ exact_count 5
  /\ Z.of_nat 2 < 5
  /\ UserDashboard.inflight
       (UserDashboard.onScan sample_user sample_qr
          (Nat.iter 2 UserDashboard.tick
             (UserDashboard.settle 0 (Backend.Resolved sample_accept)
                (UserDashboard.onScan sample_user sample_qr
                   UserDashboard.boot))))
     = [].
Proof.
  assert (H0 : UserDashboard.cooldownTimer
                 (UserDashboard.ui UserDashboard.boot) <= 0) by reflexivity.
  assert (H2 : Z.of_nat 2 < 5) by reflexivity.
  assert (He : exact_count 5) by (unfold exact_count; lia).
  split; [reflexivity|]. split; [exact H0|]. split; [reflexivity|].
  split; [exact He|]. split; [exact H2|].
  apply (hold_rejects_with_countdown sample_user sample_qr sample_qr
           sample_accept 5 2 UserDashboard.boot eq_refl H0 eq_refl He H2).
Defined.

(** X3. The same submission and answer with [n > 0], [n] a count a
    double holds exactly, then [n] ticks: the cooldown is over, the counter
    is back at zero with no interval left, and the next decode event
    handed to the handler of the current render is submitted to the
    backend. *)
Theorem hold_releases_after_countdown
  (userId : Z) (qrData qrData' : jsstring) (result : Backend.Result)
  (n : Z) (rt : UserDashboard.Runtime) :
  UserDashboard.isCooldownActive (UserDashboard.ui rt) = false ->
  UserDashboard.cooldownTimer (UserDashboard.ui rt) <= 0 ->
  Backend.cooldown_seconds result = Some n ->
  0 < n ->
  exact_count n ->
  let rt2 :=
    UserDashboard.settle (length (UserDashboard.inflight rt))
      (Backend.Resolved result) (UserDashboard.onScan userId qrData rt) in
  let rt3 := Nat.iter (Z.to_nat n) UserDashboard.tick rt2 in
  UserDashboard.cooldownTimer (UserDashboard.ui rt3) = 0
  /\ UserDashboard.isCooldownActive (UserDashboard.ui rt3) = false
  /\ UserDashboard.interval rt3 = false
  /\ UserDashboard.inflight (UserDashboard.onScan userId qrData' rt3)
     = UserDashboard.inflight rt ++ [(qrData', userId)].
Proof.
  intros Ha Ht Hc Hn _ rt2 rt3.
  destruct (submit_then_armed userId qrData result n rt Ha Hc)
    as (Ht2 & Ha2 & Hi2 & _ & Hf2); [lia | lia |].
  fold rt2 in Ht2, Ha2, Hi2, Hf2.
  assert (Hpos : (0 <? n) = true) by (apply Z.ltb_lt; lia).
  rewrite Hpos in Ha2, Hi2.
  assert (Hsplit : rt3 = UserDashboard.tick
                           (Nat.iter (Z.to_nat (n - 1)) UserDashboard.tick rt2)).
  { subst rt3. replace (Z.to_nat n) with (S (Z.to_nat (n - 1))) by lia.
    apply Nat.iter_succ. }
  destruct (ticks_count_down (Z.to_nat (n - 1)) rt2) as (Htk & _ & Hik);
    [lia | done | done |].
  destruct (tick_expires (Nat.iter (Z.to_nat (n - 1)) UserDashboard.tick rt2))
    as (Ht3 & Ha3 & Hi3); [lia | done |].
  rewrite <- Hsplit in Ht3, Ha3, Hi3.
  split; [exact Ht3|]. split; [exact Ha3|]. split; [exact Hi3|].
  rewrite (onScan_submits userId qrData' rt3 Ha3). simpl.
  f_equal. subst rt3. clear Hsplit Ht3 Ha3 Hi3 Htk Hik.
  induction (Z.to_nat n) as [|k IH]; [exact Hf2|].
  rewrite Nat.iter_succ, tick_inflight. exact IH.
Qed.

Lemma hold_releases_after_countdown_witness :
  UserDashboard.isCooldownActive (UserDashboard.ui UserDashboard.boot) = false
  /\ UserDashboard.cooldownTimer (UserDashboard.ui UserDashboard.boot) <= 0
  /\ Backend.cooldown_seconds sample_accept = Some 5
  /\ 0 < 5
  /\ exact_count 5
  /\ UserDashboard.cooldownTimer
       (UserDashboard.ui
          (Nat.iter (Z.to_nat 5) UserDashboard.tick
             (UserDashboard.settle 0 (Backend.Resolved sample_accept)
                (UserDashboard.onScan sample_user sample_qr
                   UserDashboard.boot))))
     = 0.
Proof.
  assert (H0 : UserDashboard.cooldownTimer
                 (UserDashboard.ui UserDashboard.boot) <= 0) by reflexivity.
  assert (H5 : 0 < 5) by reflexivity.
  assert (He : exact_count 5) by (unfold exact_count; lia).
  split; [reflexivity|]. split; [exact H0|]. split; [reflexivity|].
  split; [exact H5|]. split; [exact He|].
  apply (hold_releases_after_countdown sample_user sample_qr sample_qr
           sample_accept 5 UserDashboard.boot eq_refl H0 eq_refl H5 He).
Defined.

(** X4. A negative [cooldown_seconds] passes the truthiness test: the
    counter is set to the negative number, but the effect sees no positive
    counter, so no cooldown is active, no interval runs, and the next
    decode event is submitted at once. *)
Theorem negative_cooldown_holds_nothing
  (userId : Z) (qrData qrData' : jsstring) (result : Backend.Result)
  (n : Z) (rt : UserDashboard.Runtime) :
  UserDashboard.isCooldownActive (UserDashboard.ui rt) = false ->
  UserDashboard.cooldownTimer (UserDashboard.ui rt) = 0 ->
  Backend.cooldown_seconds result = Some n ->
  n < 0 ->
  let rt2 :=
    UserDashboard.settle (length (UserDashboard.inflight rt))
      (Backend.Resolved result) (UserDashboard.onScan userId qrData rt) in
  UserDashboard.cooldownTimer (UserDashboard.ui rt2) = n
  /\ UserDashboard.isCooldownActive (UserDashboard.ui rt2) = false
  /\ UserDashboard.interval rt2 = false
  /\ UserDashboard.inflight (UserDashboard.onScan userId qrData' rt2)
     = UserDashboard.inflight rt ++ [(qrData', userId)].
Proof.
  intros Ha Ht Hc Hn rt2.
  destruct (submit_then_armed userId qrData result n rt Ha Hc)
    as (Ht2 & Ha2 & Hi2 & _ & Hf2); [lia | lia |].
  fold rt2 in Ht2, Ha2, Hi2, Hf2.
  assert (Hneg : (0 <? n) = false) by (apply Z.ltb_ge; lia).
  rewrite Hneg in Ha2, Hi2.
  split; [exact Ht2|]. split; [exact Ha2|]. split; [exact Hi2|].
  rewrite (onScan_submits userId qrData' rt2 Ha2). simpl.
  rewrite Hf2. reflexivity.
Qed.

Lemma negative_cooldown_holds_nothing_witness :
  UserDashboard.isCooldownActive (UserDashboard.ui UserDashboard.boot) = false
  /\ UserDashboard.cooldownTimer (UserDashboard.ui UserDashboard.boot) = 0
  /\ -2 < 0
  /\ UserDashboard.cooldownTimer
       (UserDashboard.ui
          (UserDashboard.settle 0
             (Backend.Resolved
                {| Backend.success := true; Backend.action := None;
                   Backend.employee_name := None; Backend.time := None;
                   Backend.message := [];
                   Backend.cooldown_seconds := Some (-2) |})
             (UserDashboard.onScan sample_user sample_qr
                UserDashboard.boot)))
     = -2.
Proof.
  assert (Hn : -2 < 0) by reflexivity.
  split; [reflexivity|]. split; [reflexivity|]. split; [exact Hn|].
  apply (negative_cooldown_holds_nothing sample_user sample_qr sample_qr
           {| Backend.success := true; Backend.action := None;
              Backend.employee_name := None; Backend.time := None;
              Backend.message := [];
              Backend.cooldown_seconds := Some (-2) |}
           (-2) UserDashboard.boot eq_refl eq_refl eq_refl Hn).
Defined.

(** ** The result panel *)

(** X5. How each result the handler can set is drawn.  A refusal of the
    backend gets the orange panel exactly when its message contains
    ['poczekać'] and the heading 'Brak dostępu' exactly when it does not;
    an accepted scan gets the green panel, headed as work started exactly
    when the action is ['check_in'] and as work ended for any other or
    missing action; the local cooldown refusal is orange, the connection
    error red, both under the plain error heading. *)
Theorem result_panel_of_outcome (result : Backend.Result)
  (userId : Z) (r : UserDashboard.State) (qrData : jsstring) :
  let sr := UserDashboard.outcome result in
  (Backend.success result = true ->
   ResultPanel.colour sr = ResultPanel.green
   /\ (ResultPanel.heading sr = ResultPanel.WorkStarted
       <-> Backend.action result = Some (lit "check_in"))
   /\ (ResultPanel.heading sr = ResultPanel.WorkEnded
       <-> Backend.action result <> Some (lit "check_in")))
  /\ (Backend.success result = false ->
      (ResultPanel.colour sr = ResultPanel.orange
       <-> exists pre suf, Backend.message result = pre ++ poczekac ++ suf)
      /\ (ResultPanel.heading sr = ResultPanel.NoAccess
          <-> ~ exists pre suf, Backend.message result = pre ++ poczekac ++ suf)
      /\ (ResultPanel.heading sr = ResultPanel.Failure
          <-> exists pre suf, Backend.message result = pre ++ poczekac ++ suf))
  /\ (UserDashboard.isCooldownActive r = true ->
      forall sr', UserDashboard.handleQRScan userId r qrData
                  = [UserDashboard.setScanResult (Some sr')] ->
      ResultPanel.colour sr' = ResultPanel.orange
      /\ ResultPanel.heading sr' = ResultPanel.Failure)
  /\ ResultPanel.colour UserDashboard.connection_error = ResultPanel.red
  /\ ResultPanel.heading UserDashboard.connection_error = ResultPanel.Failure.
Proof.
  intros sr. subst sr. split; [|split; [|split]].
  - intros Hs. unfold UserDashboard.outcome, ResultPanel.colour,
      ResultPanel.heading. rewrite Hs. simpl.
    split; [reflexivity|].
    destruct (decide (Backend.action result = Some (lit "check_in")))
      as [He | He].
    + rewrite bool_decide_eq_true_2 by exact He. done.
    + rewrite bool_decide_eq_false_2 by exact He. done.
  - intros Hs. unfold UserDashboard.outcome, ResultPanel.colour,
      ResultPanel.heading. rewrite Hs. rewrite <- includes_spec.
    destruct (includes (Backend.message result) poczekac); simpl;
      repeat split; auto; done.
  - intros Hactive sr' Hsr. unfold UserDashboard.handleQRScan in Hsr.
    rewrite Hactive in Hsr. injection Hsr as <-. done.
  - done.
Qed.

(** ** The camera of the click-driven scanner *)

(** When nothing runs between the call of [getUserMedia] and its answer,
    the two halves of [startScanning] make up the whole. *)
Lemma startScanning_halves (granted : bool) (s : DemoScanner.State)
  (cam : Camera) :
  DemoStart.startScanning_resume granted (DemoStart.startScanning_begin s) cam
  = DemoScanner.startScanning granted s cam.
Proof. destruct granted; reflexivity. Qed.

(** X6. The scanner is started and stopped again before the camera
    permission is answered; then the permission is granted.  The stream is
    open, but the scanner is not scanning and holds no reference to it, and
    neither [stopScanning] nor [toggleCamera] closes it afterwards. *)
Theorem late_grant_leaves_stream_open (s : DemoScanner.State) (cam : Camera) :
  let stopped :=
    DemoScanner.stopScanning (DemoStart.startScanning_begin s) cam in
  let late := DemoStart.startScanning_resume true stopped.1 stopped.2 in
  DemoScanner.isScanning late.1 = false
  /\ DemoScanner.streamRef late.1 = None
  /\ next cam ∈ live late.2
  /\ DemoScanner.stopScanning late.1 late.2 = late
  /\ (DemoScanner.toggleCamera late.1 late.2).2 = late.2.
Proof.
  unfold DemoScanner.toggleCamera, DemoScanner.stopScanning,
    DemoStart.startScanning_resume, DemoStart.startScanning_begin.
  destruct (DemoScanner.streamRef s) as [stream|]; simpl;
    (repeat split; try done;
     apply elem_of_union_l; by apply elem_of_singleton).
Qed.

Lemma demo_step_camera_held (userId : Z) (w : DemoApp.World)
  (e : DemoApp.Event) :
  demo_camera_held w -> demo_camera_held (DemoApp.step userId w e).
Proof.
  intros Hw. pose proof Hw as [Hlive Hscan].
  assert (Hstop : demo_camera_held
            (DemoApp.with_scanner w
               (DemoScanner.stopScanning (DemoApp.scanner w) (DemoApp.cam w)))).
  { unfold demo_camera_held, DemoScanner.stopScanning. simpl.
    destruct (DemoScanner.streamRef (DemoApp.scanner w)) as [stream|];
      simpl in *.
    - rewrite Hlive, difference_diag_L. split; [done|].
      split; [done | intros [x Hx]; done].
    - split; [done|]. split; [done | intros [x Hx]; done]. }
  destruct e as [granted | granted | rnd | i o | ]; simpl.
  - destruct (disabled_in _); [exact Hw|].
    destruct (DemoScanner.isScanning (DemoApp.scanner w)) eqn:Hs;
      [exact Hstop|].
    assert (Hnone : DemoScanner.streamRef (DemoApp.scanner w) = None).
    { destruct (DemoScanner.streamRef (DemoApp.scanner w)) eqn:E; [|done].
      exfalso. destruct Hscan as [_ H].
      assert (Hf : false = true) by (apply H; eauto).
      discriminate Hf. }
    unfold demo_camera_held, DemoScanner.startScanning.
    destruct granted; simpl.
    + rewrite Hlive, Hnone, union_empty_r_L. split; [done|].
      split; [eauto | done].
    + rewrite Hlive, Hnone. split; [done|].
      split; [done | intros [x Hx]; done].
  - destruct (DemoScanner.isScanning (DemoApp.scanner w) && _); [|exact Hw].
    destruct Hstop as [Hl' Hs'].
    unfold demo_camera_held, DemoScanner.switchCamera, DemoScanner.commit,
      DemoScanner.facingModeEffect, DemoScanner.toggleCamera in *.
    unfold DemoScanner.stopScanning in *. simpl in *.
    destruct (DemoScanner.streamRef (DemoApp.scanner w)),
      (DemoScanner.facingMode (DemoApp.scanner w)); simpl in *; done.
  - destruct (DemoScanner.handleVideoClick _ _ _); exact Hw.
  - exact Hw.
  - exact Hw.
Qed.

(** X7. When every camera request is answered before the next event, the
    click-driven scanner keeps at most one stream open, namely the one in
    [streamRef], and it is scanning exactly when it holds one; whenever it
    is stopped no stream is open. *)
Theorem demo_camera_invariant (userId : Z) (es : list DemoApp.Event) :
  let w := DemoApp.steps userId DemoApp.initial es in
  demo_camera_held w
  /\ (DemoScanner.isScanning (DemoApp.scanner w) = false ->
      live (DemoApp.cam w) = ∅).
Proof.
  intros w.
  assert (Hw : demo_camera_held w).
  { subst w. assert (H : demo_camera_held DemoApp.initial).
    { split; [done|]. split; [done | intros [x Hx]; done]. }
    revert H. generalize DemoApp.initial.
    induction es as [|e es IH]; intros w Hw; [exact Hw|].
    apply IH, demo_step_camera_held, Hw. }
  split; [exact Hw|]. intros Hs. destruct Hw as [Hlive Hscan].
  rewrite Hlive.
  destruct (DemoScanner.streamRef (DemoApp.scanner w)) eqn:E; [|done].
  exfalso. destruct Hscan as [_ H].
  assert (Ht : DemoScanner.isScanning (DemoApp.scanner w) = true)
    by (apply H; eauto).
  congruence.
Qed.

(** ** The camera of the library scanner *)

Lemma live_step_camera_held (userId : Z) (w : LiveApp.World)
  (e : LiveApp.Event) :
  live_camera_held w -> live_camera_held (LiveApp.step userId w e).
Proof.
  intros Hw. pose proof Hw as [Hlive Hscan].
  (* what [destroy] leaves of the running objects *)
  assert (Hdestroyed :
    live (LiveScanner.destroy (LiveScanner.qrScannerRef (LiveApp.scanner w))
            (LiveApp.cam w)) = ∅).
  { unfold LiveScanner.destroy.
    destruct (LiveScanner.qrScannerRef (LiveApp.scanner w)) as [q|]; simpl.
    - rewrite Hlive.
      destruct (LiveScanner.isScanning (LiveApp.scanner w));
        [apply difference_diag_L | apply empty_difference_L].
    - exact Hlive. }
  assert (Hstart : forall p started s,
    LiveScanner.qrScannerRef s = LiveScanner.qrScannerRef (LiveApp.scanner w)
    \/ (exists q q', LiveScanner.qrScannerRef s = Some q'
          /\ LiveScanner.qrScannerRef (LiveApp.scanner w) = Some q
          /\ LiveScanner.oid q' = LiveScanner.oid q) ->
    live_camera_held
      (LiveApp.with_scanner w
         (LiveScanner.startScanning p started s (LiveApp.cam w)))).
  { intros p started s Href.
    assert (Hd : live (LiveScanner.destroy (LiveScanner.qrScannerRef s)
                         (LiveApp.cam w)) = ∅).
    { destruct Href as [-> | (q & q' & Hq' & Hq & Hoid)]; [exact Hdestroyed|].
      rewrite Hq'. rewrite Hq in Hdestroyed. simpl in *.
      rewrite Hoid. exact Hdestroyed. }
    unfold live_camera_held, LiveScanner.startScanning.
    destruct started; simpl; rewrite Hd.
    - rewrite union_empty_r_L. split; [done | eauto].
    - split; [done | done]. }
  destruct e as [started | switched started | data | i o | ]; simpl.
  - destruct (_ || _); [exact Hw|].
    destruct (LiveScanner.isScanning (LiveApp.scanner w)) eqn:Hs.
    + unfold live_camera_held, LiveScanner.stopScanning. simpl.
      rewrite Hdestroyed. done.
    + apply Hstart. by left.
  - destruct (LiveScanner.isScanning (LiveApp.scanner w)) eqn:Hs; [|exact Hw].
    destruct (negb _); [|exact Hw]. cbn [andb].
    unfold LiveScanner.switchCamera, LiveScanner.commit,
      LiveScanner.facingModeEffect.
    assert (Hflip : Facing_eqb
              (LiveScanner.facingMode
                 (LiveScanner.toggleCamera (LiveApp.scanner w)))
              (LiveScanner.facingMode (LiveApp.scanner w)) = false)
      by (simpl; destruct (LiveScanner.facingMode (LiveApp.scanner w)); done).
    cbn [fst snd]. rewrite Hflip.
    change (LiveScanner.isScanning
              (LiveScanner.toggleCamera (LiveApp.scanner w)))
      with (LiveScanner.isScanning (LiveApp.scanner w)).
    rewrite Hs.
    match goal with
    | |- live_camera_held (LiveApp.with_scanner w (let '(_, _) := ?x in _)) =>
        pose proof (Hstart (LiveScanner.props_of
                              (UserDashboard.ui (LiveApp.rt w)))
                      started
                      (LiveScanner.toggleCamera (LiveApp.scanner w))) as Hx;
        destruct x as [s' cam'] eqn:Ex
    end.
    assert (Hheld : live_camera_held (LiveApp.with_scanner w (s', cam'))).
    { apply Hx. simpl.
      destruct (LiveScanner.qrScannerRef (LiveApp.scanner w)) as [q|];
        [right; eauto | by left]. }
    unfold live_camera_held, LiveScanner.toggleCamera_resume in *.
    simpl in *. destruct (_ && _); exact Hheld.
  - repeat case_match; exact Hw.
  - exact Hw.
  - exact Hw.
Qed.

(** X8. When every camera start is answered before the next event, the
    library scanner keeps at most one [QrScanner] object running, the one
    in [qrScannerRef], and only while it is scanning: starting and
    switching destroy the previous object before the new one starts, and
    stopping leaves none. *)
Theorem live_camera_invariant (userId : Z) (es : list LiveApp.Event) :
  let w := LiveApp.steps userId LiveApp.initial es in
  live_camera_held w
  /\ (LiveScanner.isScanning (LiveApp.scanner w) = false ->
      live (LiveApp.cam w) = ∅).
Proof.
  intros w.
  assert (Hw : live_camera_held w).
  { subst w. assert (H : live_camera_held LiveApp.initial) by done.
    revert H. generalize LiveApp.initial.
    induction es as [|e es IH]; intros w Hw; [exact Hw|].
    apply IH, live_step_camera_held, Hw. }
  split; [exact Hw|]. intros Hs. destruct Hw as [Hlive _].
  rewrite Hlive, Hs. by destruct (LiveScanner.qrScannerRef _).
Qed.

(** X9. The camera button of the library scanner, pressed while scanning
    with the new camera starting: the scanner is scanning again, faces the
    other way, and its new object prefers that camera, runs, and carries a
    decode callback built from the props of the render that pressed the
    button, while the object held before no longer runs; this holds
    whether or not [setCamera] on the old object succeeded. *)
Theorem live_switch_keeps_scanning
  (p : LiveScanner.Props) (switched : bool) (s : LiveScanner.State)
  (cam : Camera) :
  LiveScanner.isScanning s = true ->
  let after := LiveScanner.switchCamera p switched true s cam in
  LiveScanner.isScanning after.1 = true
  /\ LiveScanner.facingMode after.1 = opposite (LiveScanner.facingMode s)
  /\ exists q,
       LiveScanner.qrScannerRef after.1 = Some q
       /\ LiveScanner.preferredCamera q = opposite (LiveScanner.facingMode s)
       /\ LiveScanner.cb_disabled q = LiveScanner.disabled p
       /\ LiveScanner.cb_onScan q = LiveScanner.onScan p
       /\ LiveScanner.oid q ∈ live after.2
       /\ forall old, LiveScanner.qrScannerRef s = Some old ->
                      LiveScanner.oid old <> LiveScanner.oid q ->
                      LiveScanner.oid old ∉ live after.2.
Proof.
  intros Hs after. subst after.
  unfold LiveScanner.switchCamera, LiveScanner.commit,
    LiveScanner.facingModeEffect, LiveScanner.toggleCamera,
    LiveScanner.toggleCamera_resume, LiveScanner.startScanning.
  destruct s as [scanning err facing ref]. simpl in Hs. subst scanning.
  destruct facing, ref as [old|], switched; simpl;
    (split; [reflexivity|]; split; [reflexivity|];
     eexists; split; [reflexivity|]; simpl;
     split; [reflexivity|]; split; [reflexivity|]; split; [reflexivity|];
     split;
     [ apply elem_of_union_l; by apply elem_of_singleton
     | intros old' Heq Hne;
       first
         [ discriminate Heq
         | injection Heq as <-;
           rewrite elem_of_union, elem_of_singleton, elem_of_difference,
             elem_of_singleton;
           intros [H | [_ H]]; [by apply Hne | by apply H] ] ]).
Qed.

Lemma live_switch_keeps_scanning_witness :
  let w := LiveApp.steps sample_user LiveApp.initial
             [LiveApp.PressMain true] in
  let p := LiveScanner.props_of (UserDashboard.ui (LiveApp.rt w)) in
  let after :=
    LiveScanner.switchCamera p false true (LiveApp.scanner w)
      (LiveApp.cam w) in
  LiveScanner.isScanning (LiveApp.scanner w) = true
  /\ LiveScanner.facingMode after.1 = user
  /\ LiveScanner.error after.1 = Some LiveScanner.switch_error
  /\ live after.2 = {[ 1%nat ]}.
Proof.
  intros w p after.
  assert (Hs : LiveScanner.isScanning (LiveApp.scanner w) = true)
    by reflexivity.
  split; [exact Hs|].
  split;
    [apply (live_switch_keeps_scanning p false (LiveApp.scanner w)
              (LiveApp.cam w) Hs)|].
  split; [reflexivity|]. cbn. reflexivity.
Defined.

(** ** The session kept in [localStorage] *)

Section SessionFacts.

Variable JSON_stringify : PanelApp.User -> jsstring.
Variable JSON_parse : jsstring -> PanelApp.Parsed.

(** X10. A login with a non-empty token survives a reload: provided the
    stored JSON text parses back to the user object, [checkAuthStatus] on a
    freshly mounted component restores that user, ends the loading state
    and leaves the storage as the login wrote it. *)
Theorem login_survives_reload
  (userData : PanelApp.User) (token : jsstring) (st : PanelApp.State)
  (b : Browser) :
  token <> [] ->
  JSON_stringify userData <> [] ->
  JSON_parse (JSON_stringify userData) = PanelApp.Value (Some userData) ->
  let logged := PanelApp.handleLogin JSON_stringify userData token st b in
  let reloaded :=
    PanelApp.checkAuthStatus JSON_parse PanelApp.initial logged.2 in
  PanelApp.user logged.1 = Some userData
  /\ PanelApp.user reloaded.1 = Some userData
  /\ PanelApp.loading reloaded.1 = false
  /\ reloaded.2 = logged.2.
Proof.
  intros Htoken Htext Hparse logged reloaded. subst logged reloaded.
  unfold PanelApp.checkAuthStatus, PanelApp.handleLogin. simpl.
  rewrite lookup_insert_ne by done. rewrite !lookup_insert_eq.
  destruct token as [|c token]; [done|].
  destruct (JSON_stringify userData) as [|c' text] eqn:Et; [done|].
  simpl. rewrite Hparse. done.
Qed.

(** X11. After [handleLogout], whatever the state before: no user is
    set, the storage has neither token nor user item while every other
    item is untouched, requests go out without the interceptor adding an
    [Authorization] header, and a reload shows the login page. *)
Theorem logout_ends_session (st : PanelApp.State) (b : Browser)
  (headers : gmap string jsstring) :
  let out := PanelApp.handleLogout st b in
  let reloaded := PanelApp.checkAuthStatus JSON_parse PanelApp.initial out.2 in
  PanelApp.user out.1 = None
  /\ localStorage out.2 !! "token" = None
  /\ localStorage out.2 !! "user" = None
  /\ (forall k, k <> "token" -> k <> "user" ->
      localStorage out.2 !! k = localStorage b !! k)
  /\ Api.requestInterceptor out.2 headers = headers
  /\ reloaded.2 = out.2
  /\ PanelApp.view reloaded.1 = PanelApp.LoginPage.
Proof.
  intros out reloaded. subst out reloaded.
  unfold PanelApp.checkAuthStatus, PanelApp.handleLogout,
    Api.requestInterceptor. simpl.
  rewrite lookup_delete_ne by done. rewrite !lookup_delete_eq. simpl.
  repeat split; try done.
  intros k Hk1 Hk2. by rewrite !lookup_delete_ne.
Qed.

(** X12. What [checkAuthStatus] does to a freshly mounted component, in
    each case of the storage.  Loading ends and of the storage only the
    token can go.  Without a non-empty token nothing is read or changed.
    With one, and a non-empty user item: when the item parses to a value,
    that value is set as the user and the storage is unchanged, also when
    the value is falsy, such as [null], so that the token stays and no
    user is shown; when it does not parse, the token is removed.  With a
    user item that is missing or empty the token is removed.  Removing the
    token leaves the user item and sets no user. *)
Theorem checkAuthStatus_outcome (b : Browser) :
  let checked := PanelApp.checkAuthStatus JSON_parse PanelApp.initial b in
  let removed :=
    {| localStorage := delete "token" (localStorage b); href := href b |} in
  PanelApp.loading checked.1 = false
  /\ href checked.2 = href b
  /\ (forall k, k <> "token" ->
      localStorage checked.2 !! k = localStorage b !! k)
  /\ (truthy_item (localStorage b !! "token") = false ->
      PanelApp.user checked.1 = None /\ checked.2 = b)
  /\ (truthy_item (localStorage b !! "token") = true ->
      (forall text v,
         localStorage b !! "user" = Some text -> text <> [] ->
         JSON_parse text = PanelApp.Value v ->
         PanelApp.user checked.1 = v /\ checked.2 = b)
      /\ (forall text,
            localStorage b !! "user" = Some text -> text <> [] ->
            JSON_parse text = PanelApp.SyntaxError ->
            PanelApp.user checked.1 = None /\ checked.2 = removed)
      /\ (truthy_item (localStorage b !! "user") = false ->
          PanelApp.user checked.1 = None /\ checked.2 = removed))
  /\ localStorage removed !! "token" = None.
Proof.
  intros checked removed. subst checked removed.
  unfold PanelApp.checkAuthStatus.
  destruct (truthy_item (localStorage b !! "token")) eqn:Htoken.
  - destruct (localStorage b !! "user") as [[|c text]|] eqn:Huser; simpl.
    + split; [done|]. split; [done|].
      split; [intros k Hk; by rewrite lookup_delete_ne|].
      split; [done|]. split; [|apply lookup_delete_eq].
      intros _. split; [|split]; [| |done].
      * intros text v Ht Hne. injection Ht as <-. done.
      * intros text Ht Hne. injection Ht as <-. done.
    + destruct (JSON_parse (c :: text)) as [|v] eqn:Hparse; simpl.
      * split; [done|]. split; [done|].
        split; [intros k Hk; by rewrite lookup_delete_ne|].
        split; [done|]. split; [|apply lookup_delete_eq].
        intros _. split; [|split]; [| |done].
        -- intros text' v Ht Hne Hp. injection Ht as <-. congruence.
        -- done.
      * split; [done|]. split; [done|]. split; [done|].
        split; [done|]. split; [|apply lookup_delete_eq].
        intros _. split; [|split]; [| |done].
        -- intros text' v' Ht Hne Hp. injection Ht as <-.
           rewrite Hparse in Hp. injection Hp as <-. done.
        -- intros text' Ht Hne Hp. injection Ht as <-. congruence.
    + split; [done|]. split; [done|].
      split; [intros k Hk; by rewrite lookup_delete_ne|].
      split; [done|]. split; [|apply lookup_delete_eq].
      intros _. split; [|split]; done.
  - simpl. split; [done|]. split; [done|]. split; [done|].
    split; [done|]. split; [done | apply lookup_delete_eq].
Qed.

(** X13. A failed call with status 401: the interceptor removes token and
    user item and sends the browser to ['/panel']; from then on requests
    carry no added [Authorization] header and a reload restores no user.
    Any other failure, with another status or without a response, leaves
    the browser as it is. *)
Theorem unauthorized_ends_session (b : Browser)
  (headers : gmap string jsstring) :
  let out := Api.responseErrorInterceptor {| Api.status := Some 401 |} b in
  let reloaded := PanelApp.checkAuthStatus JSON_parse PanelApp.initial out in
  localStorage out !! "token" = None
  /\ localStorage out !! "user" = None
  /\ href out = lit "/panel"
  /\ Api.requestInterceptor out headers = headers
  /\ PanelApp.user reloaded.1 = None
  /\ PanelApp.view reloaded.1 = PanelApp.LoginPage
  /\ forall error, Api.status error <> Some 401 ->
                   Api.responseErrorInterceptor error b = b.
Proof.
  intros out reloaded. subst out reloaded.
  unfold PanelApp.checkAuthStatus, Api.responseErrorInterceptor,
    Api.requestInterceptor.
  rewrite bool_decide_eq_true_2 by reflexivity. simpl.
  rewrite lookup_delete_ne by done. rewrite !lookup_delete_eq. simpl.
  repeat split; try done.
  intros error Hne. by rewrite bool_decide_eq_false_2.
Qed.

(** X14. After a login with a non-empty token the request interceptor
    sets [Authorization] to ['Bearer '] followed by that token, replacing
    whatever the request had there, and touches no other header. *)
Theorem request_carries_token
  (userData : PanelApp.User) (token : jsstring) (st : PanelApp.State)
  (b : Browser) (headers : gmap string jsstring) :
  token <> [] ->
  let logged := PanelApp.handleLogin JSON_stringify userData token st b in
  let sent := Api.requestInterceptor logged.2 headers in
  sent !! "Authorization" = Some (lit "Bearer " ++ token)
  /\ forall k, k <> "Authorization" -> sent !! k = headers !! k.
Proof.
  intros Htoken logged sent. subst logged sent.
  unfold Api.requestInterceptor, PanelApp.handleLogin. simpl.
  rewrite lookup_insert_ne by done. rewrite lookup_insert_eq.
  destruct token as [|c token]; [done|]. simpl.
  split; [apply lookup_insert_eq|].
  intros k Hk. by rewrite lookup_insert_ne.
Qed.

End SessionFacts.

Lemma login_survives_reload_witness :
  sample_token <> []
  /\ lit "{}" <> []
  /\ PanelApp.user
       (PanelApp.checkAuthStatus
          (fun _ => PanelApp.Value (Some sample_panel_user))
          PanelApp.initial
          (PanelApp.handleLogin (fun _ => lit "{}") sample_panel_user
             sample_token PanelApp.initial empty_browser).2).1
     = Some sample_panel_user.
Proof.
  assert (Ht : sample_token <> []) by discriminate.
  assert (Hs : lit "{}" <> []) by discriminate.
  split; [exact Ht|]. split; [exact Hs|].
  apply (login_survives_reload (fun _ => lit "{}")
           (fun _ => PanelApp.Value (Some sample_panel_user))
           sample_panel_user sample_token
           PanelApp.initial empty_browser Ht Hs eq_refl).
Defined.

Lemma request_carries_token_witness :
  sample_token <> []
  /\ Api.requestInterceptor
       (PanelApp.handleLogin (fun _ => lit "{}") sample_panel_user
          sample_token PanelApp.initial empty_browser).2 ∅
     !! "Authorization"
     = Some (lit "Bearer " ++ sample_token).
Proof.
  assert (Ht : sample_token <> []) by discriminate.
  split; [exact Ht|].
  apply (request_carries_token (fun _ => lit "{}") sample_panel_user
           sample_token PanelApp.initial empty_browser ∅ Ht).
Defined.

(** ** The name of the downloaded PDF *)

Lemma isAlnum_safeName (c : N) :
  let c' := if Api.isAlnum c then c else 95%N in
  Api.isAlnum c' = true \/ c' = 95%N.
Proof. simpl. destruct (Api.isAlnum c) eqn:E; [left | right]; done. Qed.

(** X15. The file name [downloadQRPDF] gives the link, for any employee
    name: it is twelve code units longer than the name, and each of its
    code units is a letter or digit of [[a-zA-Z0-9]], an underscore or a
    dot; in particular it holds no slash, backslash, colon or space. *)
Theorem download_name_safe (employeeName : jsstring) :
  length (Api.download employeeName) = (length employeeName + 12)%nat
  /\ (forall c, c ∈ Api.download employeeName ->
      Api.isAlnum c = true \/ c = 95%N \/ c = 46%N)
  /\ forall c, c ∈ [47%N; 92%N; 58%N; 32%N] ->
               c ∉ Api.download employeeName.
Proof.
  assert (Hsafe : forall c, c ∈ Api.download employeeName ->
            Api.isAlnum c = true \/ c = 95%N \/ c = 46%N).
  { intros c. unfold Api.download.
    rewrite !elem_of_app. intros [Hc | [Hc | Hc]].
    - revert Hc. cbn. rewrite !elem_of_cons, elem_of_nil.
      intros Hc. repeat destruct Hc as [-> | Hc]; try done; auto.
    - unfold Api.safeName in Hc. apply list_elem_of_fmap in Hc
        as (c0 & -> & _).
      destruct (isAlnum_safeName c0); auto.
    - revert Hc. cbn. rewrite !elem_of_cons, elem_of_nil.
      intros Hc. repeat destruct Hc as [-> | Hc]; try done; auto. }
  split; [|split; [exact Hsafe|]].
  - unfold Api.download, Api.safeName.
    rewrite !length_app, length_fmap. cbn. lia.
  - intros c Hc Hin. apply Hsafe in Hin.
    revert Hc. rewrite !elem_of_cons, elem_of_nil.
    intros Hc. repeat destruct Hc as [-> | Hc]; try done;
      destruct Hin as [Hin | [Hin | Hin]]; done.
Qed.

(** X16. Cleaning a name a second time changes nothing, and a name comes
    through unchanged exactly when it consists of letters and digits of
    [[a-zA-Z0-9]] and underscores only. *)
Theorem safeName_fixpoints (employeeName : jsstring) :
  Api.safeName (Api.safeName employeeName) = Api.safeName employeeName
  /\ (Api.safeName employeeName = employeeName
      <-> forall c, c ∈ employeeName -> Api.isAlnum c = true \/ c = 95%N).
Proof.
  unfold Api.safeName. split.
  - rewrite <- list_fmap_compose. apply list_fmap_ext. intros i c _. simpl.
    destruct (Api.isAlnum c) eqn:E; [by rewrite E | done].
  - induction employeeName as [|c name IH]; simpl.
    + split; [intros _ c Hc; by apply elem_of_nil in Hc | done].
    + split.
      * intros Heq. injection Heq as Hc Hname. intros c' Hc'.
        apply elem_of_cons in Hc' as [-> | Hc'].
        -- destruct (Api.isAlnum c); [by left | by right].
        -- by apply IH.
      * intros Hall. f_equal.
        -- destruct (Hall c) as [Hc | Hc]; [apply elem_of_cons; by left | |].
           ++ by rewrite Hc.
           ++ subst c. done.
        -- apply IH. intros c' Hc'. apply Hall, elem_of_cons. by right.
Qed.

(** ** The user form of the owner panel *)

(** X17. A user row opened with [handleEditUser] and submitted: with the
    password field left empty the update carries no [password] key at all,
    and with a password typed in it carries that password; either way the
    call goes to the row's id with the row's own user name and type, and
    with the row's company id, or [null] where the row has none. *)
Theorem edit_submit_keeps_password (u : OwnerDashboard.User)
  (c : N) (typed : jsstring) :
  let company :=
    if OwnerDashboard.truthy_val (Some (OwnerDashboard.company_id u))
    then OwnerDashboard.company_id u else OwnerDashboard.JNull in
  let untouched :=
    OwnerDashboard.handleUserSubmit (Some u) (OwnerDashboard.handleEditUser u) in
  let changed :=
    OwnerDashboard.handleUserSubmit (Some u)
      (OwnerDashboard.onChange "password" (c :: typed)
         (OwnerDashboard.handleEditUser u)) in
  untouched
  = OwnerDashboard.usersAPI_update (OwnerDashboard.id u)
      (<["username" := OwnerDashboard.JStr (OwnerDashboard.username u)]>
         (<["type" := OwnerDashboard.JStr (OwnerDashboard.type u)]>
            (<["company_id" := company]> ∅)))
  /\ OwnerDashboard.payload untouched !! "password" = None
  /\ changed
     = OwnerDashboard.usersAPI_update (OwnerDashboard.id u)
         (<["password" := OwnerDashboard.JStr (c :: typed)]>
            (OwnerDashboard.payload untouched)).
Proof.
  intros company untouched changed. subst company untouched changed.
  unfold OwnerDashboard.handleUserSubmit, OwnerDashboard.handleEditUser,
    OwnerDashboard.onChange.
  destruct u as [uid uname utype ucompany]. cbn [OwnerDashboard.company_id
    OwnerDashboard.id OwnerDashboard.username OwnerDashboard.type].
  destruct ucompany as [|[|c0 s]|[|p|p]];
    repeat split; vm_compute; reflexivity.
Qed.

(** X18. Whatever the form holds and whether a user is edited or
    created, the submitted object has a [company_id] that is either [null]
    or truthy: an empty string, a zero or a missing key is sent as [null].
    Every key other than [company_id] and [password] is sent as the form
    has it, and the form of a new user is sent with its [password] key
    even when that is empty. *)
Theorem submit_normalises_company (editingUser : option OwnerDashboard.User)
  (userForm : gmap string OwnerDashboard.JSval) :
  let sent :=
    OwnerDashboard.payload
      (OwnerDashboard.handleUserSubmit editingUser userForm) in
  (exists v, sent !! "company_id" = Some v
             /\ (v = OwnerDashboard.JNull
                 \/ (OwnerDashboard.truthy_val (Some v) = true
                     /\ userForm !! "company_id" = Some v)))
  /\ (forall k, k <> "company_id" -> k <> "password" ->
      sent !! k = userForm !! k)
  /\ (editingUser = None -> sent !! "password" = userForm !! "password").
Proof.
  intros sent. subst sent. unfold OwnerDashboard.handleUserSubmit.
  destruct (OwnerDashboard.truthy_val (userForm !! "company_id")) eqn:Hc.
  - assert (Hv : exists v, userForm !! "company_id" = Some v)
      by (destruct (userForm !! "company_id"); [eauto | done]).
    destruct Hv as [v Hv]. rewrite Hv in Hc.
    destruct editingUser as [u|]; cbn [OwnerDashboard.payload];
      [destruct (OwnerDashboard.truthy_val (userForm !! "password"))|].
    all: split; [exists v; rewrite ?lookup_delete_ne by done; eauto|].
    all: split; [intros k Hk1 Hk2; by rewrite ?lookup_delete_ne by done|].
    all: done.
  - destruct editingUser as [u|]; cbn [OwnerDashboard.payload];
      [destruct (OwnerDashboard.truthy_val
                   (<["company_id" := OwnerDashboard.JNull]> userForm
                      !! "password"))|].
    all: split;
      [exists OwnerDashboard.JNull; rewrite ?lookup_delete_ne by done;
       rewrite lookup_insert_eq; eauto|].
    all: split;
      [intros k Hk1 Hk2; rewrite ?lookup_delete_ne by done;
       by rewrite lookup_insert_ne by done|].
    all: try done.
    intros _. by rewrite lookup_insert_ne.
Qed.

Lemma live_decode_submits_witness :
  let q := {| LiveScanner.oid := 0; LiveScanner.cb_disabled := false;
              LiveScanner.cb_onScan := UserDashboard.initial;
              LiveScanner.preferredCamera := environment |} in
  let w := LiveApp.steps sample_user LiveApp.initial
             [LiveApp.PressMain true; LiveApp.Decode sample_qr] in
  LiveScanner.qrScannerRef (LiveApp.scanner w) = Some q
  /\ LiveScanner.oid q ∈ live (LiveApp.cam w)
  /\ sample_qr <> []
  /\ UserDashboard.inflight
       (LiveApp.rt (LiveApp.step sample_user w (LiveApp.Decode sample_qr)))
     = UserDashboard.inflight (LiveApp.rt w) ++ [(sample_qr, sample_user)].
Proof.
  intros q w.
  assert (Hq : LiveScanner.qrScannerRef (LiveApp.scanner w) = Some q)
    by reflexivity.
  assert (Hlive : LiveScanner.oid q ∈ live (LiveApp.cam w))
    by (apply elem_of_union_l; by apply elem_of_singleton).
  assert (Hdata : sample_qr <> []) by discriminate.
  split; [exact Hq|]. split; [exact Hlive|]. split; [exact Hdata|].
  apply (live_decode_submits sample_user
           [LiveApp.PressMain true; LiveApp.Decode sample_qr]
           q sample_qr Hq Hlive Hdata).
Defined.
